(** * S3 storage settings: connectivity-test endpoint and configuration panel

    A shallow embedding of

    - [pages/api/storage/test-s3.ts]: the request handler that probes a
      bucket with a HeadBucket command, and
    - the [S3ConfigPanel] React component: the form bound to the settings
      store, with its reconciliation effect, reset callback, field edits
      and test button,

    followed by the properties of both that the specification states. *)

From Stdlib Require Import String Ascii ZArith List Bool SpecFloat.
From stdpp Require Import gmap strings.
Import ListNotations.

#[local] Set Warnings "-register-all".
#[local] Open Scope string_scope.
#[local] Open Scope Z_scope.

(** ** JavaScript values and control effects *)

Module Js.

(** The values a parsed request body can hold.  Numbers are IEEE 754
    doubles, objects are finite maps from property names to values. *)
Inductive JsValue : Type :=
  | JUndefined
  | JNull
  | JBool (b : bool)
  | JNum (x : spec_float)
  | JStr (s : string)
  | JArr (xs : list JsValue)
  | JObj (fields : gmap string JsValue).

(** [ToBoolean]: the values [!v] and [v || w] branch on. *)
Definition truthy (v : JsValue) : bool :=
  match v with
  | JUndefined | JNull => false
  | JBool b => b
  | JNum (S754_zero _) | JNum S754_nan => false
  | JNum _ => true
  | JStr s => negb (String.eqb s EmptyString)
  | JArr _ | JObj _ => true
  end.

(** [!v] *)
Definition js_not (v : JsValue) : bool := negb (truthy v).

(** [v || w] evaluates to [v] when [v] is truthy and to [w] otherwise. *)
Definition js_or (v w : JsValue) : JsValue := if truthy v then v else w.

(** An [Error] object, as far as the code reads it: [name] and [message]. *)
Record JsError : Type := mkError { name : string; message : string }.

(** How a block of statements ends: normally, or by a thrown error. *)
Inductive Outcome (A : Type) : Type :=
  | Returned (a : A)
  | Thrown (e : JsError).
Arguments Returned {A} a.
Arguments Thrown {A} e.

(** Computations that leave a trace of observable events of type [E]
    and end in an [Outcome]. *)
Definition Eff (E A : Type) : Type := (list E * Outcome A)%type.

Definition ret {E A} (a : A) : Eff E A := ([], Returned a).

Definition bind {E A B} (m : Eff E A) (k : A -> Eff E B) : Eff E B :=
  match m with
  | (t, Returned a) => let '(t', r) := k a in ((t ++ t')%list, r)
  | (t, Thrown e) => (t, Thrown e)
  end.

Definition emit {E} (ev : E) : Eff E unit := ([ev], Returned tt).

Definition throw {E A} (e : JsError) : Eff E A := ([], Thrown e).

(** [try { body } catch (error) { handler error }] *)
Definition try_catch {E A} (body : Eff E A) (handler : JsError -> Eff E A) : Eff E A :=
  match body with
  | (t, Returned a) => (t, Returned a)
  | (t, Thrown e) => let '(t', r) := handler e in ((t ++ t')%list, r)
  end.

Definition trace {E A} (m : Eff E A) : list E := fst m.
Definition outcome {E A} (m : Eff E A) : Outcome A := snd m.

End Js.

(** [Eff E] is a monad; sequencing is written with stdpp's notation,
    [x ← m; k] and [m;; k]. *)
#[export] Instance eff_ret {E} : MRet (Js.Eff E) := fun _ a => Js.ret a.
#[export] Instance eff_bind {E} : MBind (Js.Eff E) := fun _ _ k m => Js.bind m k.

(** ** The connectivity-test endpoint, [pages/api/storage/test-s3.ts] *)

Module TestS3.
Import Js.

(** The part of a [NextApiRequest] the handler reads. *)
Record Request : Type := mkRequest { method : string; body : JsValue }.

(** The options object passed to [new S3Client]. *)
Record Credentials : Type :=
  mkCredentials { accessKeyId : JsValue; secretAccessKey : JsValue }.

Record S3ClientConfig : Type := mkS3ClientConfig {
  endpoint : JsValue;
  region : JsValue;
  credentials : Credentials;
  forcePathStyle : JsValue
}.

(** The input of [new HeadBucketCommand]. *)
Record HeadBucketCommand : Type := mkHeadBucket { Bucket : JsValue }.

(** The two shapes of JSON the handler answers with. *)
Inductive ResponseBody : Type :=
  | ErrorJson (error : string)
  | ResultJson (success : bool) (message : string).

(** What the handler does to the outside world, in order. *)
Inductive Event : Type :=
  | EvRunMiddleware (m : string)
  | EvNewS3Client (cfg : S3ClientConfig)
  | EvSend (cfg : S3ClientConfig) (cmd : HeadBucketCommand)
  | EvConsoleError (label : string) (e : JsError)
  | EvRespond (status : Z) (json : ResponseBody).

(** Modelled from the spec: [runMiddleware] and [corsAllMethods] of
    [@/utils/cors] are not part of the sources at hand.  The spec calls the
    step a permissive cross-origin check that runs before method
    validation: it lets every request through, whatever its method, and the
    run is recorded. *)
Definition runMiddleware (req : Request) (fn : string) : Eff Event unit :=
  emit (EvRunMiddleware fn).

Definition corsAllMethods : string := "corsAllMethods".

(** [res.status(code).json(payload)] *)
Definition res_status_json (code : Z) (payload : ResponseBody) : Eff Event unit :=
  emit (EvRespond code payload).

(** Reading property [k] of [v] in a destructuring pattern.  None of the
    six names the handler reads is a property of a primitive wrapper or
    of an array, so only objects can hold them. *)
Definition get_property (v : JsValue) (k : string) : JsValue :=
  match v with
  | JObj o => default JUndefined (o !! k)
  | _ => JUndefined
  end.

(** The options object of lines 21-29, from the destructured fields. *)
Definition clientOptions (endpoint accessKeyId secretAccessKey region pathStyle : JsValue)
  : S3ClientConfig :=
  {| endpoint := js_or endpoint JUndefined;
     region := js_or region (JStr "us-east-1");
     credentials := {| accessKeyId := accessKeyId;
                       secretAccessKey := secretAccessKey |};
     forcePathStyle := js_or pathStyle (JBool false) |}.

Section Handler.

(** The storage service: what [s3Client.send(command)] settles to, [None]
    when the promise resolves and [Some e] when it rejects with [e]. *)
Variable send : S3ClientConfig -> HeadBucketCommand -> option JsError.

(** The message of the [TypeError] the engine raises when a nullish value
    is destructured. *)
Variable destructure_message : JsValue -> string.

(** [const { endpoint, accessKeyId, secretAccessKey, region, bucket,
    pathStyle } = v] *)
Definition destructure (v : JsValue)
  : Eff Event (JsValue * JsValue * JsValue * JsValue * JsValue * JsValue) :=
  match v with
  | JUndefined | JNull => throw (mkError "TypeError" (destructure_message v))
  | _ => ret (get_property v "endpoint", get_property v "accessKeyId",
              get_property v "secretAccessKey", get_property v "region",
              get_property v "bucket", get_property v "pathStyle")
  end.

(** [await s3Client.send(command)] *)
Definition s3_send (cfg : S3ClientConfig) (cmd : HeadBucketCommand) : Eff Event unit :=
  emit (EvSend cfg cmd);;
  match send cfg cmd with
  | None => ret tt
  | Some e => throw e
  end.

(** The text after the prefix in the 500 answer. *)
Definition failure_detail (error : JsError) : string :=
  if String.eqb (name error) "NoSuchBucket" then "Bucket not found" else message error.

(** The body of the [try] block, lines 13 to 35. *)
Definition try_block (req : Request) : Eff Event unit :=
  '(endpoint, accessKeyId, secretAccessKey, region, bucket, pathStyle) ← destructure (body req);
  if js_not accessKeyId || js_not secretAccessKey || js_not bucket then
    res_status_json 400 (ErrorJson "Missing required fields: accessKeyId, secretAccessKey, or bucket")
  else
    let s3Client := clientOptions endpoint accessKeyId secretAccessKey region pathStyle in
    emit (EvNewS3Client s3Client);;
    let command := {| Bucket := bucket |} in
    s3_send s3Client command;;
    res_status_json 200 (ResultJson true "Connection test successful").

(** The [catch] block, lines 36 to 42. *)
Definition catch_block (error : JsError) : Eff Event unit :=
  emit (EvConsoleError "S3 connection test failed:" error);;
  res_status_json 500
    (ResultJson false ("Connection test failed: " +:+ failure_detail error)).

Definition handler (req : Request) : Eff Event unit :=
  runMiddleware req corsAllMethods;;
  if negb (String.eqb (method req) "POST") then
    res_status_json 405 (ErrorJson "Method not allowed")
  else
    try_catch (try_block req) catch_block.

End Handler.

(** Observations on a run of the handler. *)
Definition responses (t : list Event) : list (Z * ResponseBody) :=
  flat_map (fun ev => match ev with EvRespond c j => [(c, j)] | _ => [] end) t.

Definition clients_constructed (t : list Event) : list S3ClientConfig :=
  flat_map (fun ev => match ev with EvNewS3Client c => [c] | _ => [] end) t.

Definition network_calls (t : list Event) : list (S3ClientConfig * HeadBucketCommand) :=
  flat_map (fun ev => match ev with EvSend c m => [(c, m)] | _ => [] end) t.

Definition middleware_runs (t : list Event) : list string :=
  flat_map (fun ev => match ev with EvRunMiddleware m => [m] | _ => [] end) t.

Definition console_errors (t : list Event) : list (string * JsError) :=
  flat_map (fun ev => match ev with EvConsoleError l e => [(l, e)] | _ => [] end) t.

(** A field that is absent or the empty string. *)
Definition missing (v : JsValue) : Prop := v = JUndefined \/ v = JStr EmptyString.

(** A request whose body is neither [undefined] nor [null], so that its
    fields can be read. *)
Definition hasBody (req : Request) : Prop :=
  body req <> JUndefined /\ body req <> JNull.

End TestS3.

(** ** [JSON.stringify] on flat objects of strings and booleans *)

Module Json.

Definition dquote : ascii := "034"%char.

(** Lower-case hexadecimal digit of a number below sixteen. *)
Definition hex_digit (n : N) : ascii :=
  if (n <? 10)%N then ascii_of_N (48 + n) else ascii_of_N (87 + n).

(** [QuoteJSONString] on one character: the short escapes, the
    [\u00xx] form for the other control characters, and the character
    itself otherwise. *)
Definition escape_char (c : ascii) : string :=
  if Ascii.eqb c "008" then "\b"
  else if Ascii.eqb c "009" then "\t"
  else if Ascii.eqb c "010" then "\n"
  else if Ascii.eqb c "012" then "\f"
  else if Ascii.eqb c "013" then "\r"
  else if Ascii.eqb c dquote then String "\" (String dquote EmptyString)
  else if Ascii.eqb c "\" then "\\"
  else if (N_of_ascii c <? 32)%N then
    "\u00" +:+ String (hex_digit (N_of_ascii c / 16))
                 (String (hex_digit (N_of_ascii c mod 16)) EmptyString)
  else String c EmptyString.

Fixpoint escape (s : string) : string :=
  match s with
  | EmptyString => EmptyString
  | String c rest => escape_char c +:+ escape rest
  end.

Definition quote (s : string) : string :=
  String dquote (escape s +:+ String dquote EmptyString).

(** The property values that occur: strings and booleans. *)
Inductive JsonValue : Type :=
  | JsonString (s : string)
  | JsonBool (b : bool).

Definition stringify_value (v : JsonValue) : string :=
  match v with
  | JsonString s => quote s
  | JsonBool true => "true"
  | JsonBool false => "false"
  end.

Fixpoint stringify_members (ms : list (string * JsonValue)) : string :=
  match ms with
  | [] => EmptyString
  | (k, v) :: rest =>
      quote k +:+ ":" +:+ stringify_value v +:+
      match rest with
      | [] => EmptyString
      | _ => "," +:+ stringify_members rest
      end
  end.

(** [JSON.stringify] of an object literal whose properties, in order,
    are [ms]. *)
Definition JSON_stringify (ms : list (string * JsonValue)) : string :=
  "{" +:+ stringify_members ms +:+ "}".

(** Reading one escaped character back, used to show that [quote] loses
    nothing. *)
Definition hex_value (c : ascii) : option N :=
  let n := N_of_ascii c in
  if ((48 <=? n) && (n <=? 57))%N then Some (n - 48)%N
  else if ((97 <=? n) && (n <=? 102))%N then Some (n - 87)%N
  else None.

Definition unescape_char (s : string) : option (ascii * string) :=
  match s with
  | String "\" (String "b" r) => Some ("008"%char, r)
  | String "\" (String "t" r) => Some ("009"%char, r)
  | String "\" (String "n" r) => Some ("010"%char, r)
  | String "\" (String "f" r) => Some ("012"%char, r)
  | String "\" (String "r" r) => Some ("013"%char, r)
  | String "\" (String "\" r) => Some ("\"%char, r)
  | String "\" (String "u" (String "0" (String "0" (String h (String l r))))) =>
      match hex_value h, hex_value l with
      | Some a, Some b => Some (ascii_of_N (16 * a + b), r)
      | _, _ => None
      end
  | String "\" (String c r) => if Ascii.eqb c dquote then Some (dquote, r) else None
  | String c r => if Ascii.eqb c dquote then None else Some (c, r)
  | EmptyString => None
  end.

End Json.

(** ** The configuration panel, [S3ConfigPanel] *)

Module S3ConfigPanel.
Import Js.

(** [types/s3config.ts] *)
Record S3Config : Type := mkS3Config {
  endpoint : string;
  accessKeyId : string;
  secretAccessKey : string;
  region : string;
  bucket : string;
  pathStyle : bool
}.

(** The initial value of the [config] state, also what the reset
    callback installs. *)
Definition emptyConfig : S3Config :=
  {| endpoint := EmptyString; accessKeyId := EmptyString;
     secretAccessKey := EmptyString; region := EmptyString;
     bucket := EmptyString; pathStyle := false |}.

(** The [testResult] state. *)
Record TestResult : Type := mkTestResult { success : bool; message : string }.

(** The four [useState] cells of the component. *)
Record PanelState : Type := mkPanelState {
  config : S3Config;
  showSecret : bool;
  testResult : option TestResult;
  isTesting : bool
}.

Definition initialState : PanelState :=
  {| config := emptyConfig; showSecret := false; testResult := None; isTesting := false |}.

(** A string in a condition: truthy when it is not empty. *)
Definition nonempty (s : string) : bool := negb (String.eqb s EmptyString).

(** The object literal both sides of the comparison in the
    reconciliation effect are built from, lines 33-39 and 41-47: every
    field except [secretAccessKey]. *)
Definition comparedFields (c : S3Config) : list (string * Json.JsonValue) :=
  [ ("endpoint", Json.JsonString (endpoint c));
    ("accessKeyId", Json.JsonString (accessKeyId c));
    ("region", Json.JsonString (region c));
    ("bucket", Json.JsonString (bucket c));
    ("pathStyle", Json.JsonBool (pathStyle c)) ].

(** One [onChange] of the form: the field and its new value, one
    constructor per input element. *)
Inductive FieldEdit : Type :=
  | EditEndpoint (value : string)
  | EditAccessKeyId (value : string)
  | EditSecretAccessKey (value : string)
  | EditRegion (value : string)
  | EditBucket (value : string)
  | EditPathStyle (checked : bool).

(** [{ ...config, [field]: value }] *)
Definition applyEdit (e : FieldEdit) (c : S3Config) : S3Config :=
  match e with
  | EditEndpoint v =>
      mkS3Config v (accessKeyId c) (secretAccessKey c) (region c) (bucket c) (pathStyle c)
  | EditAccessKeyId v =>
      mkS3Config (endpoint c) v (secretAccessKey c) (region c) (bucket c) (pathStyle c)
  | EditSecretAccessKey v =>
      mkS3Config (endpoint c) (accessKeyId c) v (region c) (bucket c) (pathStyle c)
  | EditRegion v =>
      mkS3Config (endpoint c) (accessKeyId c) (secretAccessKey c) v (bucket c) (pathStyle c)
  | EditBucket v =>
      mkS3Config (endpoint c) (accessKeyId c) (secretAccessKey c) (region c) v (pathStyle c)
  | EditPathStyle b =>
      mkS3Config (endpoint c) (accessKeyId c) (secretAccessKey c) (region c) (bucket c) b
  end.

Section Panel.

(** Whatever else the application keeps in its settings document. *)
Variable OtherSettings : Type.

(** The translation function [_] of [useTranslation]: a key and the
    values to interpolate. *)
Variable translate : string -> list (string * string) -> string.

(** The settings document, as far as the panel touches it. *)
Record Settings : Type := mkSettings {
  s3Config : option S3Config;
  otherSettings : OtherSettings
}.

(** Calls that leave the component. *)
Inductive Call : Type :=
  | CallSetSettings (s : Settings)
  | CallSaveSettings (s : Settings)
  | CallSetTimeout (ms : Z).

(** The component together with the store it is bound to: its own state,
    the [settings] value of the store, and the calls made so far (oldest
    first). *)
Record World : Type := mkWorld {
  panel : PanelState;
  settings : Settings;
  calls : list Call
}.

Definition setConfig (f : S3Config -> S3Config) (w : World) : World :=
  {| panel := {| config := f (config (panel w));
                 showSecret := showSecret (panel w);
                 testResult := testResult (panel w);
                 isTesting := isTesting (panel w) |};
     settings := settings w; calls := calls w |}.

Definition setTestResult (r : option TestResult) (w : World) : World :=
  {| panel := {| config := config (panel w);
                 showSecret := showSecret (panel w);
                 testResult := r;
                 isTesting := isTesting (panel w) |};
     settings := settings w; calls := calls w |}.

Definition setIsTesting (b : bool) (w : World) : World :=
  {| panel := {| config := config (panel w);
                 showSecret := showSecret (panel w);
                 testResult := testResult (panel w);
                 isTesting := b |};
     settings := settings w; calls := calls w |}.

Definition call (c : Call) (w : World) : World :=
  {| panel := panel w; settings := settings w; calls := (calls w ++ [c])%list |}.

(** [setSettings] of the store replaces its [settings] value. *)
Definition setSettings (s : Settings) (w : World) : World :=
  call (CallSetSettings s)
       {| panel := panel w; settings := s; calls := calls w |}.

(** The first effect, lines 29-67, run against the store's current
    [s3Config]. *)
Definition reconcile (w : World) : World :=
  let config := config (panel w) in
  match s3Config (settings w) with
  | Some stored =>
      let currentConfigString := Json.JSON_stringify (comparedFields config) in
      let settingsConfigString := Json.JSON_stringify (comparedFields stored) in
      if negb (String.eqb currentConfigString settingsConfigString) then
        setConfig (fun _ => stored) w
      else w
  | None =>
      if nonempty (endpoint config) || nonempty (accessKeyId config)
         || nonempty (region config) || nonempty (bucket config) || pathStyle config
      then
        setConfig (fun prev =>
          {| endpoint := EmptyString; accessKeyId := EmptyString;
             secretAccessKey := secretAccessKey prev; region := EmptyString;
             bucket := EmptyString; pathStyle := false |}) w
      else w
  end.

(** The function the second effect hands to [onRegisterReset], lines
    70-79. *)
Definition resetFn (w : World) : World :=
  setConfig (fun _ => emptyConfig) w.

(** [saveConfigToStore] up to its [await], lines 85-91. *)
Definition saveConfigToStore_begin (newConfig : S3Config) (w : World) : World :=
  let newSettings :=
    {| s3Config := Some newConfig; otherSettings := otherSettings (settings w) |} in
  call (CallSaveSettings newSettings) (setSettings newSettings w).

(** [saveConfigToStore] from the point where [saveSettings] has settled,
    lines 93-104: [r] is how the awaited promise settled. *)
Definition saveConfigToStore_settle (r : Outcome unit) (w : World) : World :=
  match r with
  | Returned _ =>
      setTestResult
        (Some {| success := true;
                 message := translate "S3 configuration saved successfully" [] |}) w
  | Thrown error =>
      setTestResult
        (Some {| success := false;
                 message := translate "Failed to save S3 configuration: {{error}}"
                                      [("error", Js.message error)] |}) w
  end.

(** [handleChange], lines 107-116: runs until [saveConfigToStore]
    suspends. *)
Definition handleChange (e : FieldEdit) (w : World) : World :=
  let newConfig := applyEdit e (config (panel w)) in
  saveConfigToStore_begin newConfig (setConfig (fun _ => newConfig) w).

(** A field edit followed by the settling of its write. *)
Definition editField (e : FieldEdit) (saved : Outcome unit) (w : World) : World :=
  saveConfigToStore_settle saved (handleChange e w).

(** [handleTestConnection] up to its [await], lines 119-124. *)
Definition handleTestConnection_begin (w : World) : World :=
  call (CallSetTimeout 1000) (setTestResult None (setIsTesting true w)).

(** The promise awaited on line 124 resolves when the timer fires; no
    path rejects it. *)
Definition timerPromise : Outcome unit := Returned tt.

(** [handleTestConnection] after the [await], lines 127-140. *)
Definition handleTestConnection_settle (r : Outcome unit) (w : World) : World :=
  let w' :=
    match r with
    | Returned _ =>
        setTestResult
          (Some {| success := true; message := translate "Connection test successful" [] |}) w
    | Thrown error =>
        setTestResult
          (Some {| success := false;
                   message := translate "Connection test failed: {{error}}"
                                        [("error", Js.message error)] |}) w
    end in
  setIsTesting false w'.

(** One click on the test button, run to completion. *)
Definition handleTestConnection (w : World) : World :=
  handleTestConnection_settle timerPromise (handleTestConnection_begin w).

End Panel.

Arguments mkSettings {OtherSettings} _ _.
Arguments s3Config {OtherSettings} _.
Arguments otherSettings {OtherSettings} _.
Arguments CallSetSettings {OtherSettings} _.
Arguments CallSaveSettings {OtherSettings} _.
Arguments CallSetTimeout {OtherSettings} _.
Arguments mkWorld {OtherSettings} _ _ _.
Arguments panel {OtherSettings} _.
Arguments settings {OtherSettings} _.
Arguments calls {OtherSettings} _.
Arguments setConfig {OtherSettings} _ _.
Arguments setTestResult {OtherSettings} _ _.
Arguments setIsTesting {OtherSettings} _ _.
Arguments call {OtherSettings} _ _.
Arguments setSettings {OtherSettings} _ _.
Arguments reconcile {OtherSettings} _.
Arguments resetFn {OtherSettings} _.
Arguments saveConfigToStore_begin {OtherSettings} _ _.
Arguments saveConfigToStore_settle {OtherSettings} _ _ _.
Arguments handleChange {OtherSettings} _ _.
Arguments editField {OtherSettings} _ _ _ _.
Arguments handleTestConnection_begin {OtherSettings} _.
Arguments handleTestConnection_settle {OtherSettings} _ _ _.
Arguments handleTestConnection {OtherSettings} _ _.

(** Two configurations that agree on every field the reconciliation
    effect compares, that is on every field but the secret. *)
Definition sameNonSecret (c1 c2 : S3Config) : Prop :=
  endpoint c1 = endpoint c2 /\ accessKeyId c1 = accessKeyId c2 /\
  region c1 = region c2 /\ bucket c1 = bucket c2 /\ pathStyle c1 = pathStyle c2.

(** The [saveSettings] calls in a list of calls. *)
Definition savedSettings {O} (cs : list (Call O)) : list (Settings O) :=
  flat_map (fun c => match c with CallSaveSettings s => [s] | _ => [] end) cs.

(** The key [handleChange] is called with, one per input element. *)
Definition editedField (e : FieldEdit) : string :=
  match e with
  | EditEndpoint _ => "endpoint"
  | EditAccessKeyId _ => "accessKeyId"
  | EditSecretAccessKey _ => "secretAccessKey"
  | EditRegion _ => "region"
  | EditBucket _ => "bucket"
  | EditPathStyle _ => "pathStyle"
  end.

(** The value [handleChange] is called with. *)
Definition editedValue (e : FieldEdit) : Json.JsonValue :=
  match e with
  | EditEndpoint v | EditAccessKeyId v | EditSecretAccessKey v
  | EditRegion v | EditBucket v => Json.JsonString v
  | EditPathStyle b => Json.JsonBool b
  end.

(** [config[key]]: the value of the property named [key], if the
    configuration has one. *)
Definition readField (key : string) (c : S3Config) : option Json.JsonValue :=
  if String.eqb key "endpoint" then Some (Json.JsonString (endpoint c))
  else if String.eqb key "accessKeyId" then Some (Json.JsonString (accessKeyId c))
  else if String.eqb key "secretAccessKey" then Some (Json.JsonString (secretAccessKey c))
  else if String.eqb key "region" then Some (Json.JsonString (region c))
  else if String.eqb key "bucket" then Some (Json.JsonString (bucket c))
  else if String.eqb key "pathStyle" then Some (Json.JsonBool (pathStyle c))
  else None.

(** *** What the component renders, lines 143-263 *)

(** An argument of [clsx]: a class name, or an object whose keys are
    class names kept when their value is true. *)
Inductive ClassArg : Type :=
  | ClassName (c : string)
  | ClassMap (entries : list (string * bool)).

Definition classNames (a : ClassArg) : list string :=
  match a with
  | ClassName c => [c]
  | ClassMap entries => flat_map (fun kb : string * bool => if snd kb then [fst kb] else []) entries
  end.

Fixpoint joinWithSpace (cs : list string) : string :=
  match cs with
  | [] => EmptyString
  | [c] => c
  | c :: rest => c +:+ " " +:+ joinWithSpace rest
  end.

Definition clsx (args : list ClassArg) : string :=
  joinWithSpace (flat_map classNames args).

(** The parts of the rendered form that depend on state. *)
Record View : Type := mkView {
  endpointInput : string;
  accessKeyIdInput : string;
  secretInputType : string;
  secretInput : string;
  secretToggleText : string;
  regionInput : string;
  bucketInput : string;
  pathStyleCheckbox : bool;
  alert : option (string * string);
  testButtonClass : string;
  testButtonDisabled : bool;
  testButtonText : string
}.

Section Rendering.

Variable OtherSettings : Type.
Variable translate : string -> list (string * string) -> string.

Definition render (st : PanelState) : View :=
  {| endpointInput := endpoint (config st);
     accessKeyIdInput := accessKeyId (config st);
     secretInputType := if showSecret st then "text" else "password";
     secretInput := secretAccessKey (config st);
     secretToggleText := if showSecret st then translate "Hide" [] else translate "Show" [];
     regionInput := region (config st);
     bucketInput := bucket (config st);
     pathStyleCheckbox := pathStyle (config st);
     alert :=
       match testResult st with
       | Some r =>
           Some (clsx [ClassName "alert";
                       ClassMap [("alert-success", success r);
                                 ("alert-error", negb (success r))]],
                 message r)
       | None => None
       end;
     testButtonClass :=
       clsx [ClassName "btn"; ClassName "btn-primary"; ClassMap [("loading", isTesting st)]];
     testButtonDisabled := isTesting st;
     testButtonText :=
       if isTesting st then translate "Testing..." [] else translate "Test Connection" [] |}.

Definition setShowSecret (b : bool) (w : World OtherSettings) : World OtherSettings :=
  {| panel := {| config := config (panel w);
                 showSecret := b;
                 testResult := testResult (panel w);
                 isTesting := isTesting (panel w) |};
     settings := settings w; calls := calls w |}.

(** *** The events the component reacts to *)

(** The user's actions on the rendered elements, the settling of what
    the component awaits, and the two things the rest of the application
    does to it: calling the registered reset function, and replacing the
    store's settings by a value with a new [s3Config] object, which is
    what makes the first effect run again. *)
Inductive UiEvent : Type :=
  | Change (e : FieldEdit)
  | WriteSettled (r : Outcome unit)
  | ClickTest
  | TimerFired
  | ClickShowSecret
  | ResetTriggered
  | StoreChanged (s : Settings OtherSettings).

(** The [setTimeout] calls in a list of calls. *)
Definition timersSet (cs : list (Call OtherSettings)) : nat :=
  length (flat_map (fun c => match c with CallSetTimeout ms => [ms] | _ => [] end) cs).

(** A mounted component: its world, and how many of the timers and of
    the writes it started have settled. *)
Record Session : Type := mkSession {
  world : World OtherSettings;
  timersFired : nat;
  writesSettled : nat
}.

Definition pendingTests (s : Session) : nat :=
  (timersSet (calls (world s)) - timersFired s)%nat.

Definition pendingWrites (s : Session) : nat :=
  (length (savedSettings (calls (world s))) - writesSettled s)%nat.

Definition inWorld (f : World OtherSettings -> World OtherSettings) (s : Session) : Session :=
  {| world := f (world s); timersFired := timersFired s; writesSettled := writesSettled s |}.

(** One event.  A change of [settings.s3Config], by the component itself
    or from elsewhere, makes the first effect run after the render; a
    disabled button takes no click; a timer or a write settles only if
    one is pending. *)
Definition dispatch (ev : UiEvent) (s : Session) : Session :=
  match ev with
  | Change e => inWorld (fun w => reconcile (handleChange e w)) s
  | WriteSettled r =>
      if (0 <? pendingWrites s)%nat then
        {| world := saveConfigToStore_settle translate r (world s);
           timersFired := timersFired s;
           writesSettled := S (writesSettled s) |}
      else s
  | ClickTest =>
      if testButtonDisabled (render (panel (world s))) then s
      else inWorld handleTestConnection_begin s
  | TimerFired =>
      if (0 <? pendingTests s)%nat then
        {| world := handleTestConnection_settle translate timerPromise (world s);
           timersFired := S (timersFired s);
           writesSettled := writesSettled s |}
      else s
  | ClickShowSecret =>
      inWorld (fun w => setShowSecret (negb (showSecret (panel w))) w) s
  | ResetTriggered => inWorld resetFn s
  | StoreChanged new =>
      inWorld (fun w => reconcile {| panel := panel w; settings := new; calls := calls w |}) s
  end.

(** The component right after its first render and effects, over a store
    holding [s]. *)
Definition mount (s : Settings OtherSettings) : Session :=
  {| world := reconcile {| panel := initialState; settings := s; calls := [] |};
     timersFired := 0; writesSettled := 0 |}.

(** A sequence of events, oldest first. *)
Definition run (evs : list UiEvent) (s : Session) : Session :=
  fold_left (fun s ev => dispatch ev s) evs s.

(** The clicks on the show/hide button among [evs]. *)
Definition toggleClicks (evs : list UiEvent) : nat :=
  length (List.filter (fun ev => match ev with ClickShowSecret => true | _ => false end) evs).

(** The field edits among [evs]. *)
Definition changes (evs : list UiEvent) : list FieldEdit :=
  flat_map (fun ev => match ev with Change e => [e] | _ => [] end) evs.

(** The timers set are the timers fired, and one more while a test is
    running. *)
Definition testingInvariant (s : Session) : Prop :=
  (timersFired s + (if isTesting (panel (world s)) then 1 else 0)
   = timersSet (calls (world s)))%nat.

End Rendering.

Arguments setShowSecret {OtherSettings} _ _.
Arguments Change {OtherSettings} _.
Arguments WriteSettled {OtherSettings} _.
Arguments ClickTest {OtherSettings}.
Arguments TimerFired {OtherSettings}.
Arguments ClickShowSecret {OtherSettings}.
Arguments ResetTriggered {OtherSettings}.
Arguments StoreChanged {OtherSettings} _.
Arguments timersSet {OtherSettings} _.
Arguments mkSession {OtherSettings} _ _ _.
Arguments world {OtherSettings} _.
Arguments timersFired {OtherSettings} _.
Arguments writesSettled {OtherSettings} _.
Arguments pendingTests {OtherSettings} _.
Arguments pendingWrites {OtherSettings} _.
Arguments inWorld {OtherSettings} _ _.
Arguments dispatch {OtherSettings} _ _ _.
Arguments mount {OtherSettings} _.
Arguments run {OtherSettings} _ _ _.
Arguments toggleClicks {OtherSettings} _.
Arguments changes {OtherSettings} _.
Arguments testingInvariant {OtherSettings} _.

End S3ConfigPanel.

(** ** Sample requests and environments *)

Module Samples.
Import Js TestS3.

(** A storage service that answers every probe. *)
Definition reachable : S3ClientConfig -> HeadBucketCommand -> option JsError :=
  fun _ _ => None.

(** A storage service in which no bucket exists. *)
Definition noSuchBucket : S3ClientConfig -> HeadBucketCommand -> option JsError :=
  fun _ _ => Some (mkError "NoSuchBucket" "The specified bucket does not exist").

(** The wording of V8 for a destructured nullish value. *)
Definition v8Message (v : JsValue) : string :=
  match v with
  | JNull => "Cannot destructure property 'endpoint' of 'req.body' as it is null."
  | _ => "Cannot destructure property 'endpoint' of 'req.body' as it is undefined."
  end.

(** [{accessKeyId: 'AK', secretAccessKey: 'SK', bucket: 'b'}] *)
Definition minimalBody : JsValue :=
  JObj {[ "accessKeyId" := JStr "AK"; "secretAccessKey" := JStr "SK"; "bucket" := JStr "b" ]}.

(** [{bucket: 'b'}] *)
Definition bucketOnlyBody : JsValue := JObj {[ "bucket" := JStr "b" ]}.

(** A body that sets every field. *)
Definition fullBody : JsValue :=
  JObj {[ "endpoint" := JStr "https://minio.local:9000";
          "accessKeyId" := JStr "AK"; "secretAccessKey" := JStr "SK";
          "region" := JStr "eu-west-1"; "bucket" := JStr "b";
          "pathStyle" := JBool true ]}.

Definition post (b : JsValue) : Request := {| method := "POST"; body := b |}.
Definition get : Request := {| method := "GET"; body := JUndefined |}.

(** [{accessKeyId: 'AK', secretAccessKey: 'SK', bucket: 'b', region: 5,
    pathStyle: 0}]: optional fields of other types than the form sends. *)
Definition untypedOptionsBody : JsValue :=
  JObj {[ "accessKeyId" := JStr "AK"; "secretAccessKey" := JStr "SK";
          "bucket" := JStr "b";
          "region" := JNum (S754_finite false 5 0);
          "pathStyle" := JNum (S754_zero false) ]}.

End Samples.

Module PanelSamples.
Import S3ConfigPanel.

(** What the user has typed so far. *)
Definition localConfig : S3Config :=
  {| endpoint := "https://s3.example.com"; accessKeyId := "AK";
     secretAccessKey := "SK"; region := "us-east-1"; bucket := "books";
     pathStyle := false |}.

(** A stored value with another access key and no secret. *)
Definition incomingConfig : S3Config :=
  {| endpoint := "https://s3.example.com"; accessKeyId := "AK2";
     secretAccessKey := EmptyString; region := "us-east-1"; bucket := "books";
     pathStyle := false |}.

(** A stored value that differs from [localConfig] in the secret only. *)
Definition incomingWithoutSecret : S3Config :=
  {| endpoint := "https://s3.example.com"; accessKeyId := "AK";
     secretAccessKey := EmptyString; region := "us-east-1"; bucket := "books";
     pathStyle := false |}.

(** A translation that leaves every key as it is. *)
Definition untranslated : string -> list (string * string) -> string :=
  fun key _ => key.

(** A freshly rendered panel showing [local] over a store holding
    [stored]. *)
Definition world (local : S3Config) (stored : option S3Config) : World unit :=
  {| panel := {| config := local; showSecret := false;
                 testResult := None; isTesting := false |};
     settings := {| s3Config := stored; otherSettings := tt |};
     calls := [] |}.

(** A rejected write. *)
Definition diskFull : Js.JsError := Js.mkError "Error" "disk full".

End PanelSamples.

(** * Properties of the endpoint *)

Module TestS3Facts.
Import Js TestS3.

Section Facts.

Variable send : S3ClientConfig -> HeadBucketCommand -> option JsError.
Variable destructure_message : JsValue -> string.

Abbreviation handler := (handler send destructure_message).
Abbreviation try_block := (try_block send destructure_message).

(** A field that is absent or empty is falsy. *)
Lemma missing_falsy v : missing v -> js_not v = true.
Proof. intros [-> | ->]; reflexivity. Qed.

Lemma missing_not_truthy v : missing v -> truthy v = false.
Proof. intros [-> | ->]; reflexivity. Qed.

Lemma nonempty_string_truthy s : s <> EmptyString -> truthy (JStr s) = true.
Proof.
  intros Hs. simpl. destruct (String.eqb_spec s EmptyString); [contradiction | reflexivity].
Qed.

Lemma truthy_field_object b k :
  truthy (get_property b k) = true -> exists o, b = JObj o.
Proof. destruct b; simpl; try discriminate. eauto. Qed.

(** The run of a POST whose three required fields are truthy, event by
    event. *)
Lemma handler_post_present req :
  method req = "POST" ->
  truthy (get_property (body req) "accessKeyId") = true ->
  truthy (get_property (body req) "secretAccessKey") = true ->
  truthy (get_property (body req) "bucket") = true ->
  let b := body req in
  let s3Client := clientOptions (get_property b "endpoint") (get_property b "accessKeyId")
                    (get_property b "secretAccessKey") (get_property b "region")
                    (get_property b "pathStyle") in
  let command := {| Bucket := get_property b "bucket" |} in
  handler req =
    match send s3Client command with
    | None =>
        ([EvRunMiddleware corsAllMethods; EvNewS3Client s3Client; EvSend s3Client command;
          EvRespond 200 (ResultJson true "Connection test successful")], Returned tt)
    | Some e =>
        ([EvRunMiddleware corsAllMethods; EvNewS3Client s3Client; EvSend s3Client command;
          EvConsoleError "S3 connection test failed:" e;
          EvRespond 500 (ResultJson false ("Connection test failed: " +:+ failure_detail e))],
         Returned tt)
    end.
Proof.
  destruct req as [m b]; simpl. intros -> Ha Hs Hb.
  destruct (truthy_field_object _ _ Ha) as [o ->].
  unfold TestS3.handler, TestS3.try_block, js_not; simpl in *.
  rewrite Ha, Hs, Hb; simpl.
  unfold s3_send; simpl.
  destruct (send _ _); reflexivity.
Qed.

(** The run of a POST that has a body in which a required field is
    falsy. *)
Lemma handler_post_falsy req :
  method req = "POST" ->
  hasBody req ->
  js_not (get_property (body req) "accessKeyId")
  || js_not (get_property (body req) "secretAccessKey")
  || js_not (get_property (body req) "bucket") = true ->
  handler req =
    ([EvRunMiddleware corsAllMethods;
      EvRespond 400 (ErrorJson "Missing required fields: accessKeyId, secretAccessKey, or bucket")],
     Returned tt).
Proof.
  destruct req as [m b]; unfold hasBody; simpl. intros -> [Hu Hn] Hf.
  unfold TestS3.handler, TestS3.try_block; simpl.
  destruct b; try contradiction; simpl in *; try reflexivity.
  rewrite Hf. reflexivity.
Qed.

(** The run of a POST whose body is [undefined] or [null]. *)
Lemma handler_post_nullish req :
  method req = "POST" ->
  body req = JUndefined \/ body req = JNull ->
  handler req =
    ([EvRunMiddleware corsAllMethods;
      EvConsoleError "S3 connection test failed:"
        (mkError "TypeError" (destructure_message (body req)));
      EvRespond 500
        (ResultJson false ("Connection test failed: " +:+ destructure_message (body req)))],
     Returned tt).
Proof.
  destruct req as [m b]; simpl. intros -> [-> | ->]; reflexivity.
Qed.

(** When the [try] block throws it has not answered yet. *)
Lemma try_block_thrown req t e :
  try_block req = (t, Thrown e) -> responses t = [].
Proof.
  destruct req as [m b]. unfold TestS3.try_block; simpl.
  destruct b; simpl;
    try (intros [= <- _]; reflexivity);
    try (intros [= _]; fail).
  destruct (js_not _ || js_not _ || js_not _); simpl; [discriminate |].
  unfold s3_send; simpl. destruct (send _ _); simpl; [| discriminate].
  intros [= <- _]. reflexivity.
Qed.

Lemma responses_app t1 t2 : responses (t1 ++ t2)%list = (responses t1 ++ responses t2)%list.
Proof. unfold responses. apply flat_map_app. Qed.

(** C1. A POST whose body holds truthy (so, for strings, non-empty)
    [accessKeyId], [secretAccessKey] and [bucket] sends one HeadBucket
    probe for that bucket.  If the probe succeeds the only answer is 200
    with [{success: true, message: "Connection test successful"}]; if it
    fails with [e] the only answer is 500 with [{success: false, message:
    "Connection test failed: <detail>"}], where the detail is "Bucket not
    found" when [e] is named NoSuchBucket and the message of [e] when it
    is not. *)
Theorem handler_probe_outcome req :
  method req = "POST" ->
  truthy (get_property (body req) "accessKeyId") = true ->
  truthy (get_property (body req) "secretAccessKey") = true ->
  truthy (get_property (body req) "bucket") = true ->
  exists s3Client command,
    network_calls (trace (handler req)) = [(s3Client, command)] /\
    Bucket command = get_property (body req) "bucket" /\
    (send s3Client command = None ->
       responses (trace (handler req)) =
         [(200, ResultJson true "Connection test successful")]) /\
    (forall e, send s3Client command = Some e ->
       exists detail,
         responses (trace (handler req)) =
           [(500, ResultJson false ("Connection test failed: " +:+ detail))] /\
         (name e = "NoSuchBucket" -> detail = "Bucket not found") /\
         (name e <> "NoSuchBucket" -> detail = message e)).
Proof.
  intros Hm Ha Hs Hb.
  pose proof (handler_post_present req Hm Ha Hs Hb) as Hrun; simpl in Hrun.
  eexists _, {| Bucket := get_property (body req) "bucket" |}.
  rewrite Hrun. split; [| split; [reflexivity | split]].
  - destruct (send _ _); reflexivity.
  - intros Hok. rewrite Hok. reflexivity.
  - intros e He. rewrite He. exists (failure_detail e). split; [reflexivity |].
    unfold failure_detail.
    destruct (String.eqb_spec (name e) "NoSuchBucket"); split; congruence.
Qed.

(** C2, as the code has it.  A POST that has a body (neither [undefined]
    nor [null]) in which [accessKeyId], [secretAccessKey] or [bucket] is
    absent or the empty string is answered with 400 and [{error: "Missing
    required fields: accessKeyId, secretAccessKey, or bucket"}], and that
    is all the handler does after the middleware: no client is
    constructed and nothing is sent. *)
Theorem handler_missing_fields req :
  method req = "POST" ->
  hasBody req ->
  missing (get_property (body req) "accessKeyId")
  \/ missing (get_property (body req) "secretAccessKey")
  \/ missing (get_property (body req) "bucket") ->
  responses (trace (handler req)) =
    [(400, ErrorJson "Missing required fields: accessKeyId, secretAccessKey, or bucket")] /\
  clients_constructed (trace (handler req)) = [] /\
  network_calls (trace (handler req)) = [] /\
  outcome (handler req) = Returned tt.
Proof.
  intros Hm Hb Hmiss.
  rewrite (handler_post_falsy req Hm Hb); [repeat split |].
  destruct Hmiss as [H | [H | H]]; apply missing_falsy in H; rewrite H;
    rewrite ?orb_true_r; reflexivity.
Qed.

(** C5. Every run of the handler starts with the cross-origin
    middleware, which runs once, whatever the method; and a request whose
    method is not POST is then answered with 405 and nothing else
    happens. *)
Theorem handler_method_not_allowed req :
  (exists rest,
     trace (handler req) = EvRunMiddleware corsAllMethods :: rest /\
     middleware_runs rest = []) /\
  (method req <> "POST" ->
     handler req =
       ([EvRunMiddleware corsAllMethods; EvRespond 405 (ErrorJson "Method not allowed")],
        Returned tt)).
Proof.
  split.
  - destruct req as [m b]. unfold TestS3.handler; simpl.
    destruct (String.eqb m "POST"); simpl; [| eexists; split; reflexivity].
    unfold TestS3.try_block; simpl.
    destruct b; simpl; try (eexists; split; reflexivity).
    destruct (js_not _ || js_not _ || js_not _); simpl; [eexists; split; reflexivity |].
    unfold s3_send; simpl. destruct (send _ _); simpl; eexists; split; reflexivity.
  - intros Hm. unfold TestS3.handler.
    destruct (String.eqb_spec (method req) "POST"); [contradiction | reflexivity].
Qed.

Lemma clients_constructed_present req :
  method req = "POST" ->
  truthy (get_property (body req) "accessKeyId") = true ->
  truthy (get_property (body req) "secretAccessKey") = true ->
  truthy (get_property (body req) "bucket") = true ->
  clients_constructed (trace (handler req)) =
    [clientOptions (get_property (body req) "endpoint")
       (get_property (body req) "accessKeyId")
       (get_property (body req) "secretAccessKey")
       (get_property (body req) "region")
       (get_property (body req) "pathStyle")].
Proof.
  intros Hm Ha Hs Hb.
  pose proof (handler_post_present req Hm Ha Hs Hb) as Hrun; simpl in Hrun.
  rewrite Hrun. destruct (send _ _); reflexivity.
Qed.

(** C8, as the code has it.  A POST with the required fields present
    constructs exactly one storage client, with the credentials of the
    request.  Each optional field goes through [||]: the region of the
    client is the region of the request whenever that is truthy, so in
    particular when it is a non-empty string, and "us-east-1" when it is
    absent, empty or otherwise falsy; path-style addressing is the value
    of the request whenever that is truthy, so [true] when the request
    says [true], and [false] when the request gives none or a falsy one;
    the endpoint is the endpoint of the request whenever that is truthy,
    and [undefined], the default of the provider, when it is absent,
    empty or otherwise falsy. *)
Theorem handler_client_options req :
  method req = "POST" ->
  truthy (get_property (body req) "accessKeyId") = true ->
  truthy (get_property (body req) "secretAccessKey") = true ->
  truthy (get_property (body req) "bucket") = true ->
  exists s3Client,
    clients_constructed (trace (handler req)) = [s3Client] /\
    credentials s3Client =
      {| accessKeyId := get_property (body req) "accessKeyId";
         secretAccessKey := get_property (body req) "secretAccessKey" |} /\
    (truthy (get_property (body req) "region") = true ->
       region s3Client = get_property (body req) "region") /\
    (truthy (get_property (body req) "region") = false ->
       region s3Client = JStr "us-east-1") /\
    (truthy (get_property (body req) "pathStyle") = true ->
       forcePathStyle s3Client = get_property (body req) "pathStyle") /\
    (truthy (get_property (body req) "pathStyle") = false ->
       forcePathStyle s3Client = JBool false) /\
    (truthy (get_property (body req) "endpoint") = true ->
       endpoint s3Client = get_property (body req) "endpoint") /\
    (truthy (get_property (body req) "endpoint") = false ->
       endpoint s3Client = JUndefined) /\
    (forall s, get_property (body req) "region" = JStr s -> s <> EmptyString ->
       region s3Client = JStr s) /\
    (forall b, get_property (body req) "pathStyle" = JBool b ->
       forcePathStyle s3Client = JBool b) /\
    (forall s, get_property (body req) "endpoint" = JStr s -> s <> EmptyString ->
       endpoint s3Client = JStr s).
Proof.
  intros Hm Ha Hs Hb. eexists. split; [apply clients_constructed_present; assumption |].
  unfold clientOptions, js_or; simpl.
  split; [reflexivity |]. repeat split.
  - intros ->. reflexivity.
  - intros ->. reflexivity.
  - intros ->. reflexivity.
  - intros ->. reflexivity.
  - intros ->. reflexivity.
  - intros ->. reflexivity.
  - intros s -> Hne. rewrite (nonempty_string_truthy s Hne). reflexivity.
  - intros b ->. destruct b; reflexivity.
  - intros s -> Hne. rewrite (nonempty_string_truthy s Hne). reflexivity.
Qed.

(** C10. No run of the handler ends in a thrown error.  On a POST,
    whenever the [try] block throws an error [e], whether from the
    destructuring of the body or from the probe, the one answer is 500
    with [{success: false, message: "Connection test failed: ..."}], the
    rest of the message being the detail of [e]; in particular a POST
    whose body is [undefined] is answered with 500 and the message of
    the engine's TypeError, not with 400. *)
Theorem handler_catches_everything req :
  outcome (handler req) = Returned tt /\
  (method req = "POST" ->
     (forall t e, try_block req = (t, Thrown e) ->
        responses (trace (handler req)) =
          [(500, ResultJson false ("Connection test failed: " +:+ failure_detail e))]) /\
     (body req = JUndefined ->
        try_block req = ([], Thrown (mkError "TypeError" (destructure_message JUndefined))) /\
        responses (trace (handler req)) =
          [(500, ResultJson false
                   ("Connection test failed: " +:+ destructure_message JUndefined))])).
Proof.
  split; [| intros Hm; split].
  - destruct req as [m b]. unfold TestS3.handler; simpl.
    destruct (String.eqb m "POST"); simpl; [| reflexivity].
    unfold TestS3.try_block; simpl.
    destruct b; simpl; try reflexivity.
    destruct (js_not _ || js_not _ || js_not _); simpl; [reflexivity |].
    unfold s3_send; simpl. destruct (send _ _); reflexivity.
  - intros t e Hthrow. pose proof (try_block_thrown req t e Hthrow) as Hnone.
    unfold TestS3.handler. rewrite Hm; simpl. rewrite Hthrow; simpl.
    change (EvRunMiddleware corsAllMethods :: (t ++ _)%list)
      with ([EvRunMiddleware corsAllMethods] ++ t ++
            [EvConsoleError "S3 connection test failed:" e;
             EvRespond 500
               (ResultJson false ("Connection test failed: " +:+ failure_detail e))])%list.
    rewrite !responses_app, Hnone. reflexivity.
  - intros Hb. split.
    + unfold TestS3.try_block. rewrite Hb. reflexivity.
    + rewrite (handler_post_nullish req Hm (or_introl Hb)), Hb. reflexivity.
Qed.

End Facts.

(** The inputs at which the statements above are exercised. *)

Lemma handler_probe_outcome_witness :
  exists s3Client command,
    network_calls (trace (handler Samples.noSuchBucket Samples.v8Message
                            (Samples.post Samples.minimalBody))) = [(s3Client, command)] /\
    Bucket command = get_property Samples.minimalBody "bucket" /\
    (Samples.noSuchBucket s3Client command = None ->
       responses (trace (handler Samples.noSuchBucket Samples.v8Message
                           (Samples.post Samples.minimalBody))) =
         [(200, ResultJson true "Connection test successful")]) /\
    (forall e, Samples.noSuchBucket s3Client command = Some e ->
       exists detail,
         responses (trace (handler Samples.noSuchBucket Samples.v8Message
                             (Samples.post Samples.minimalBody))) =
           [(500, ResultJson false ("Connection test failed: " +:+ detail))] /\
         (name e = "NoSuchBucket" -> detail = "Bucket not found") /\
         (name e <> "NoSuchBucket" -> detail = message e)).
Proof.
  apply (handler_probe_outcome Samples.noSuchBucket Samples.v8Message
           (Samples.post Samples.minimalBody)); vm_compute; reflexivity.
Defined.

Lemma handler_missing_fields_witness :
  responses (trace (handler Samples.reachable Samples.v8Message
                      (Samples.post Samples.bucketOnlyBody))) =
    [(400, ErrorJson "Missing required fields: accessKeyId, secretAccessKey, or bucket")] /\
  clients_constructed (trace (handler Samples.reachable Samples.v8Message
                                (Samples.post Samples.bucketOnlyBody))) = [] /\
  network_calls (trace (handler Samples.reachable Samples.v8Message
                          (Samples.post Samples.bucketOnlyBody))) = [] /\
  outcome (handler Samples.reachable Samples.v8Message
             (Samples.post Samples.bucketOnlyBody)) = Returned tt.
Proof.
  apply (handler_missing_fields Samples.reachable Samples.v8Message
           (Samples.post Samples.bucketOnlyBody)).
  - reflexivity.
  - split; discriminate.
  - left. left. vm_compute. reflexivity.
Defined.

Lemma handler_method_not_allowed_witness :
  handler Samples.reachable Samples.v8Message Samples.get =
    ([EvRunMiddleware corsAllMethods; EvRespond 405 (ErrorJson "Method not allowed")],
     Returned tt).
Proof.
  apply (proj2 (handler_method_not_allowed Samples.reachable Samples.v8Message Samples.get)).
  vm_compute. discriminate.
Defined.

Lemma handler_client_options_witness :
  exists s3Client,
    clients_constructed (trace (handler Samples.reachable Samples.v8Message
                                  (Samples.post Samples.fullBody))) = [s3Client] /\
    region s3Client = JStr "eu-west-1" /\
    forcePathStyle s3Client = JBool true /\
    endpoint s3Client = JStr "https://minio.local:9000".
Proof.
  destruct (handler_client_options Samples.reachable Samples.v8Message
              (Samples.post Samples.fullBody))
    as (s3Client & Hc & _ & Hregion & _ & Hpath & _ & Hendpoint & _);
    [reflexivity | vm_compute; reflexivity | vm_compute; reflexivity
    | vm_compute; reflexivity |].
  exists s3Client. split; [exact Hc |]. split; [| split].
  - rewrite Hregion; vm_compute; reflexivity.
  - rewrite Hpath; vm_compute; reflexivity.
  - rewrite Hendpoint; vm_compute; reflexivity.
Defined.

(** C8 as stated fails: the region of the request is the number 5, not
    a non-empty string, and the client is constructed with 5, not with
    "us-east-1"; path style is given as 0 and the client gets [false]. *)
Lemma client_region_passed_through :
  method (Samples.post Samples.untypedOptionsBody) = "POST" /\
  (forall s, get_property Samples.untypedOptionsBody "region" <> JStr s) /\
  map region (clients_constructed
                (trace (handler Samples.reachable Samples.v8Message
                          (Samples.post Samples.untypedOptionsBody)))) =
    [JNum (S754_finite false 5 0)] /\
  map region (clients_constructed
                (trace (handler Samples.reachable Samples.v8Message
                          (Samples.post Samples.untypedOptionsBody)))) <>
    [JStr "us-east-1"] /\
  get_property Samples.untypedOptionsBody "pathStyle" = JNum (S754_zero false) /\
  map forcePathStyle (clients_constructed
                (trace (handler Samples.reachable Samples.v8Message
                          (Samples.post Samples.untypedOptionsBody)))) =
    [JBool false].
Proof.
  split; [reflexivity |]. split; [intros s; vm_compute; discriminate |].
  split; [vm_compute; reflexivity |]. split; [vm_compute; discriminate |].
  split; vm_compute; reflexivity.
Qed.

Example handler_client_defaults :
  exists s3Client,
    clients_constructed (trace (handler Samples.reachable Samples.v8Message
                                  (Samples.post Samples.minimalBody))) = [s3Client] /\
    region s3Client = JStr "us-east-1" /\
    forcePathStyle s3Client = JBool false /\
    endpoint s3Client = JUndefined.
Proof.
  exists (clientOptions JUndefined (JStr "AK") (JStr "SK") JUndefined JUndefined).
  vm_compute. repeat split.
Qed.

Lemma handler_catches_everything_witness :
  responses (trace (handler Samples.reachable Samples.v8Message (Samples.post JUndefined))) =
    [(500, ResultJson false
             ("Connection test failed: " +:+ Samples.v8Message JUndefined))].
Proof.
  destruct (handler_catches_everything Samples.reachable Samples.v8Message
              (Samples.post JUndefined)) as [_ Hpost].
  destruct (Hpost eq_refl) as [_ Hundefined].
  destruct (Hundefined eq_refl) as [_ Hresp]. exact Hresp.
Defined.

(** C2 as stated fails: a POST whose body is [null], or [undefined],
    holds none of the three fields, and the answer is 500. *)
Lemma missing_fields_without_body :
  method (Samples.post JNull) = "POST" /\
  missing (get_property (body (Samples.post JNull)) "accessKeyId") /\
  responses (trace (handler Samples.reachable Samples.v8Message (Samples.post JNull))) =
    [(500, ResultJson false
             "Connection test failed: Cannot destructure property 'endpoint' of 'req.body' as it is null.")] /\
  responses (trace (handler Samples.reachable Samples.v8Message (Samples.post JNull))) <>
    [(400, ErrorJson "Missing required fields: accessKeyId, secretAccessKey, or bucket")] /\
  missing (get_property (body (Samples.post JUndefined)) "accessKeyId") /\
  responses (trace (handler Samples.reachable Samples.v8Message (Samples.post JUndefined))) =
    [(500, ResultJson false
             "Connection test failed: Cannot destructure property 'endpoint' of 'req.body' as it is undefined.")].
Proof.
  split; [reflexivity |]. split; [left; reflexivity |].
  split; [vm_compute; reflexivity |]. split; [vm_compute; discriminate |].
  split; [left; reflexivity |]. vm_compute; reflexivity.
Qed.

(** The scenarios of the specification. *)

Example scenario_A :
  responses (trace (handler Samples.reachable Samples.v8Message
                      (Samples.post Samples.minimalBody))) =
    [(200, ResultJson true "Connection test successful")].
Proof. vm_compute. reflexivity. Qed.

Example scenario_B :
  responses (trace (handler Samples.reachable Samples.v8Message
                      (Samples.post Samples.bucketOnlyBody))) =
    [(400, ErrorJson "Missing required fields: accessKeyId, secretAccessKey, or bucket")].
Proof. vm_compute. reflexivity. Qed.

Example scenario_C :
  responses (trace (handler Samples.noSuchBucket Samples.v8Message
                      (Samples.post Samples.minimalBody))) =
    [(500, ResultJson false "Connection test failed: Bucket not found")].
Proof. vm_compute. reflexivity. Qed.

Example scenario_D :
  responses (trace (handler Samples.reachable Samples.v8Message Samples.get)) =
    [(405, ErrorJson "Method not allowed")].
Proof. vm_compute. reflexivity. Qed.

(** Falsy values other than the empty string are rejected as well:
    [{accessKeyId: 0, secretAccessKey: 'SK', bucket: 'b'}]. *)
Example zero_access_key :
  responses (trace (handler Samples.reachable Samples.v8Message
     (Samples.post (JObj {[ "accessKeyId" := JNum (S754_zero false);
                            "secretAccessKey" := JStr "SK";
                            "bucket" := JStr "b" ]})))) =
    [(400, ErrorJson "Missing required fields: accessKeyId, secretAccessKey, or bucket")].
Proof. vm_compute. reflexivity. Qed.

End TestS3Facts.

(** * Properties of the panel *)

Module JsonFacts.
Import Json.

#[local] Arguments String.append !_ _ / : simpl nomatch.

Lemma append_assoc (a b c : string) : (a +:+ b) +:+ c = a +:+ (b +:+ c).
Proof. induction a as [| x a IH]; simpl; [reflexivity | rewrite IH; reflexivity]. Qed.

Lemma append_cancel_l (a x y : string) : a +:+ x = a +:+ y -> x = y.
Proof. induction a as [| c a IH]; simpl; [tauto | intros [= H]; auto]. Qed.

(** An escaped character can be read back, whatever follows it. *)
Lemma unescape_escape_char c r : unescape_char (escape_char c +:+ r) = Some (c, r).
Proof.
  destruct c as [[] [] [] [] [] [] [] []]; reflexivity.
Qed.

(** No escaped character starts with the closing quote. *)
Lemma escape_char_not_quote c r r' : escape_char c +:+ r <> String dquote r'.
Proof.
  destruct c as [[] [] [] [] [] [] [] []]; discriminate.
Qed.

Lemma escape_cancel s1 : forall s2 r1 r2,
  escape s1 +:+ String dquote r1 = escape s2 +:+ String dquote r2 ->
  s1 = s2 /\ r1 = r2.
Proof.
  induction s1 as [| c1 s1 IH]; intros [| c2 s2] r1 r2; simpl.
  - intros [= ->]. split; reflexivity.
  - rewrite append_assoc. intros H. symmetry in H.
    destruct (escape_char_not_quote _ _ _ H).
  - rewrite append_assoc. intros H. destruct (escape_char_not_quote _ _ _ H).
  - rewrite !append_assoc. intros H.
    apply (f_equal unescape_char) in H. rewrite !unescape_escape_char in H.
    injection H as -> H. destruct (IH _ _ _ H) as [-> ->]. split; reflexivity.
Qed.

(** Two quoted strings followed by anything are equal only if the
    strings and what follows are. *)
Lemma quote_cancel s1 s2 r1 r2 :
  quote s1 +:+ r1 = quote s2 +:+ r2 -> s1 = s2 /\ r1 = r2.
Proof.
  unfold quote; simpl. rewrite !append_assoc; simpl.
  intros [= H]. exact (escape_cancel _ _ _ _ H).
Qed.

Lemma quote_inj s1 s2 : quote s1 = quote s2 -> s1 = s2.
Proof.
  intros H. apply (f_equal (fun q => q +:+ EmptyString)) in H.
  exact (proj1 (quote_cancel _ _ _ _ H)).
Qed.

(** A member with a string value, followed by anything. *)
Lemma string_member_cancel k s1 s2 r1 r2 :
  quote k +:+ ":" +:+ quote s1 +:+ r1 = quote k +:+ ":" +:+ quote s2 +:+ r2 ->
  s1 = s2 /\ r1 = r2.
Proof.
  intros H. apply append_cancel_l in H.
  injection H as H. rewrite !append_assoc in H.
  exact (escape_cancel _ _ _ _ H).
Qed.

Lemma bool_member_cancel k b1 b2 r :
  quote k +:+ ":" +:+ stringify_value (JsonBool b1) +:+ r
  = quote k +:+ ":" +:+ stringify_value (JsonBool b2) +:+ r ->
  b1 = b2.
Proof.
  intros H. apply append_cancel_l in H.
  destruct b1, b2; simpl in H; try reflexivity; discriminate.
Qed.

End JsonFacts.

Module PanelFacts.
Import Js Json JsonFacts S3ConfigPanel.

(** The two strings the reconciliation effect compares are equal
    exactly when the compared fields are. *)
Lemma comparedFields_inj c1 c2 :
  JSON_stringify (comparedFields c1) = JSON_stringify (comparedFields c2) ->
  sameNonSecret c1 c2.
Proof.
  unfold JSON_stringify, comparedFields, sameNonSecret.
  cbn [stringify_members stringify_value].
  rewrite !append_assoc. intros H.
  apply append_cancel_l in H.
  apply string_member_cancel in H as [-> H]. apply append_cancel_l in H.
  apply string_member_cancel in H as [-> H]. apply append_cancel_l in H.
  apply string_member_cancel in H as [-> H]. apply append_cancel_l in H.
  apply string_member_cancel in H as [-> H]. apply append_cancel_l in H.
  do 2 apply append_cancel_l in H.
  repeat split.
  destruct (pathStyle c1), (pathStyle c2); try reflexivity; discriminate.
Qed.

Lemma comparedFields_same c1 c2 :
  sameNonSecret c1 c2 ->
  JSON_stringify (comparedFields c1) = JSON_stringify (comparedFields c2).
Proof.
  unfold comparedFields. intros (-> & -> & -> & -> & ->). reflexivity.
Qed.

(** What the effect compares, on a sample: the text [JSON.stringify]
    produces, quotes and escapes included. *)
Example comparedFields_text :
  JSON_stringify (comparedFields PanelSamples.localConfig) =
    "{" +:+ quote "endpoint" +:+ ":" +:+ quote "https://s3.example.com" +:+ ","
        +:+ quote "accessKeyId" +:+ ":" +:+ quote "AK" +:+ ","
        +:+ quote "region" +:+ ":" +:+ quote "us-east-1" +:+ ","
        +:+ quote "bucket" +:+ ":" +:+ quote "books" +:+ ","
        +:+ quote "pathStyle" +:+ ":false}".
Proof. vm_compute. reflexivity. Qed.

Example quote_escapes :
  quote (String "010" (String dquote "\")) =
    String dquote ("\n\" +:+ String dquote ("\\" +:+ String dquote EmptyString)).
Proof. vm_compute. reflexivity. Qed.

(** An edit changes the field it names and no other. *)
Lemma applyEdit_secret_only c v :
  secretAccessKey (applyEdit (EditSecretAccessKey v) c) = v /\
  sameNonSecret (applyEdit (EditSecretAccessKey v) c) c.
Proof. repeat split. Qed.

Lemma applyEdit_keeps_secret e c :
  (forall v, e <> EditSecretAccessKey v) ->
  secretAccessKey (applyEdit e c) = secretAccessKey c.
Proof. destruct e; intros H; try reflexivity. destruct (H value eq_refl). Qed.

Section Facts.

Variable OtherSettings : Type.
Variable translate : string -> list (string * string) -> string.

Implicit Types w : World OtherSettings.

(** The effect leaves the panel alone when the store agrees with it on
    the compared fields. *)
Lemma reconcile_same w stored :
  s3Config (settings w) = Some stored ->
  sameNonSecret (config (panel w)) stored ->
  reconcile w = w.
Proof.
  intros Hs Hsame. unfold reconcile. rewrite Hs.
  rewrite (comparedFields_same _ _ Hsame), String.eqb_refl. reflexivity.
Qed.

(** The effect installs the stored value, secret included, when a
    compared field differs. *)
Lemma reconcile_differs w stored :
  s3Config (settings w) = Some stored ->
  ~ sameNonSecret (config (panel w)) stored ->
  config (panel (reconcile w)) = stored.
Proof.
  intros Hs Hdiff. unfold reconcile. rewrite Hs.
  destruct (String.eqb_spec (JSON_stringify (comparedFields (config (panel w))))
                            (JSON_stringify (comparedFields stored))) as [Heq | Hne].
  - destruct (Hdiff (comparedFields_inj _ _ Heq)).
  - reflexivity.
Qed.

(** With no stored configuration the effect clears the compared fields
    and keeps the secret. *)
Lemma reconcile_absent w :
  s3Config (settings w) = None ->
  secretAccessKey (config (panel (reconcile w))) = secretAccessKey (config (panel w)).
Proof.
  intros Hs. unfold reconcile. rewrite Hs.
  destruct (nonempty _ || nonempty _ || nonempty _ || nonempty _ || pathStyle _);
    reflexivity.
Qed.

(** C3, as the code has it.  When the store changes, the secret held
    locally is kept if the stored value agrees with the local copy on
    every other field (the panel is then left untouched), and if the store
    holds no configuration; when another field differs, the local copy
    becomes the stored value, with the secret of the stored value. *)
Theorem reconcile_keeps_secret_when_unchanged w :
  (forall stored,
     s3Config (settings w) = Some stored ->
     sameNonSecret (config (panel w)) stored ->
     panel (reconcile w) = panel w /\
     secretAccessKey (config (panel (reconcile w))) = secretAccessKey (config (panel w))) /\
  (s3Config (settings w) = None ->
     secretAccessKey (config (panel (reconcile w))) = secretAccessKey (config (panel w))) /\
  (forall stored,
     s3Config (settings w) = Some stored ->
     ~ sameNonSecret (config (panel w)) stored ->
     config (panel (reconcile w)) = stored).
Proof.
  split; [| split].
  - intros stored Hs Hsame. rewrite (reconcile_same w stored Hs Hsame).
    split; reflexivity.
  - apply reconcile_absent.
  - apply reconcile_differs.
Qed.

(** The test button.  The click clears the result and raises
    [isTesting]; the only call it makes is [setTimeout]. *)
Lemma handleTestConnection_begin_spec w :
  let w1 := handleTestConnection_begin w in
  isTesting (panel w1) = true /\ testResult (panel w1) = None /\
  config (panel w1) = config (panel w) /\
  calls w1 = (calls w ++ [CallSetTimeout 1000])%list.
Proof. repeat split. Qed.

(** When the timer fires the result is the same success, whatever the
    configuration. *)
Lemma handleTestConnection_spec w :
  let w2 := handleTestConnection translate w in
  testResult (panel w2) =
    Some {| success := true; message := translate "Connection test successful" [] |} /\
  isTesting (panel w2) = false /\
  config (panel w2) = config (panel w) /\
  settings w2 = settings w /\
  calls w2 = (calls w ++ [CallSetTimeout 1000])%list.
Proof. repeat split. Qed.

(** The panel after an edit, before the write has settled: the form and
    the store already hold the edited configuration. *)
Lemma handleChange_spec e w :
  let w1 := handleChange e w in
  let newConfig := applyEdit e (config (panel w)) in
  let newSettings := {| s3Config := Some newConfig;
                        otherSettings := otherSettings (settings w) |} in
  config (panel w1) = newConfig /\
  testResult (panel w1) = testResult (panel w) /\
  settings w1 = newSettings /\
  calls w1 = (calls w ++ [CallSetSettings newSettings; CallSaveSettings newSettings])%list.
Proof.
  repeat split. unfold handleChange, saveConfigToStore_begin, setSettings, call; simpl.
  rewrite <- app_assoc. reflexivity.
Qed.

(** C6, as the code has it.  When the write of an edit fails with
    [error], the failure is shown as the result, with the message of
    [error] interpolated; the edited value stays in the form and in the
    store's settings: nothing is rolled back. *)
Theorem edit_failure_is_reported w e error :
  let w' := editField translate e (Thrown error) w in
  testResult (panel w') =
    Some {| success := false;
            message := translate "Failed to save S3 configuration: {{error}}"
                                 [("error", Js.message error)] |} /\
  config (panel w') = applyEdit e (config (panel w)) /\
  s3Config (settings w') = Some (applyEdit e (config (panel w))).
Proof. repeat split. Qed.

(** C7, as the code has it.  The function registered with the parent
    sets every field of the local configuration to its empty default; it
    leaves the store's settings as they are and makes no call. *)
Theorem reset_clears_local_config w :
  let w' := resetFn w in
  config (panel w') = emptyConfig /\
  (endpoint (config (panel w')) = EmptyString /\
   accessKeyId (config (panel w')) = EmptyString /\
   secretAccessKey (config (panel w')) = EmptyString /\
   region (config (panel w')) = EmptyString /\
   bucket (config (panel w')) = EmptyString /\
   pathStyle (config (panel w')) = false) /\
  settings w' = settings w /\
  calls w' = calls w.
Proof. repeat split. Qed.

(** C9. Once the write of an edit has succeeded the result shown is the
    message that the configuration was saved, whatever was shown before
    and whatever happened while the write was pending; in particular the
    outcome of a connection test does not outlive an edit made after
    it. *)
Theorem successful_edit_overwrites_result w e :
  let saved := Some {| success := true;
                       message := translate "S3 configuration saved successfully" [] |} in
  testResult (panel (editField translate e (Returned tt) w)) = saved /\
  (forall w', testResult (panel (saveConfigToStore_settle translate (Returned tt) w')) = saved) /\
  testResult (panel (editField translate e (Returned tt) (handleTestConnection translate w)))
    = saved.
Proof. repeat split. Qed.

End Facts.

(** C4, the code at one input.  A click on the test button over a form
    in which nothing has been entered: the panel reports success, and the
    only call it has made is the timer. *)
Theorem handleTestConnection_empty_form :
  let w := handleTestConnection PanelSamples.untranslated
             (PanelSamples.world emptyConfig None) in
  testResult (panel w) =
    Some {| success := true; message := "Connection test successful" |} /\
  isTesting (panel w) = false /\
  calls w = [CallSetTimeout 1000].
Proof. repeat split. Qed.

Lemma reconcile_keeps_secret_when_unchanged_witness :
  panel (reconcile (PanelSamples.world PanelSamples.localConfig
                      (Some PanelSamples.incomingWithoutSecret)))
  = panel (PanelSamples.world PanelSamples.localConfig
             (Some PanelSamples.incomingWithoutSecret)) /\
  secretAccessKey (config (panel (reconcile
     (PanelSamples.world PanelSamples.localConfig
        (Some PanelSamples.incomingWithoutSecret))))) = "SK".
Proof.
  apply (proj1 (reconcile_keeps_secret_when_unchanged unit
                  (PanelSamples.world PanelSamples.localConfig
                     (Some PanelSamples.incomingWithoutSecret)))
               PanelSamples.incomingWithoutSecret).
  - reflexivity.
  - vm_compute. repeat split.
Defined.

(** C3 as stated fails: the stored value has no secret, the local copy
    holds one, another field differs, and the secret is gone. *)
Lemma reconcile_erases_secret :
  let w := PanelSamples.world PanelSamples.localConfig (Some PanelSamples.incomingConfig) in
  secretAccessKey PanelSamples.incomingConfig = EmptyString /\
  secretAccessKey (config (panel w)) = "SK" /\
  secretAccessKey (config (panel (reconcile w))) = EmptyString /\
  secretAccessKey (config (panel (reconcile w))) <> secretAccessKey (config (panel w)).
Proof. vm_compute. repeat split. discriminate. Qed.

(** C6 as stated fails: the write is rejected and the form shows the
    edited endpoint all the same. *)
Lemma edit_failure_changes_form :
  let w := PanelSamples.world emptyConfig None in
  let w' := editField PanelSamples.untranslated (EditEndpoint "https://s3.example.com")
              (Thrown PanelSamples.diskFull) w in
  endpoint (config (panel w)) = EmptyString /\
  endpoint (config (panel w')) = "https://s3.example.com" /\
  config (panel w') <> config (panel w).
Proof. vm_compute. repeat split. discriminate. Qed.

(** C7 as stated fails: after the reset the form is empty, the store
    still holds the old configuration, and nothing was saved. *)
Lemma reset_not_persisted :
  let w := PanelSamples.world PanelSamples.localConfig (Some PanelSamples.localConfig) in
  config (panel (resetFn w)) = emptyConfig /\
  s3Config (settings (resetFn w)) = Some PanelSamples.localConfig /\
  s3Config (settings (resetFn w)) <> Some emptyConfig /\
  savedSettings (calls (resetFn w)) = [].
Proof. vm_compute. repeat split. discriminate. Qed.

End PanelFacts.

(** * Further properties of the endpoint *)

Module TestS3More.
Import Js TestS3 TestS3Facts.

Section Facts.

Variable send : S3ClientConfig -> HeadBucketCommand -> option JsError.
Variable destructure_message : JsValue -> string.

Abbreviation handler := (handler send destructure_message).

Lemma hasBody_dec req : hasBody req \/ body req = JUndefined \/ body req = JNull.
Proof.
  unfold hasBody. destruct (body req); auto; left; split; discriminate.
Qed.

(** Every run of the handler has one of five shapes. *)
Lemma handler_shapes req :
  let b := body req in
  let s3Client := clientOptions (get_property b "endpoint") (get_property b "accessKeyId")
                    (get_property b "secretAccessKey") (get_property b "region")
                    (get_property b "pathStyle") in
  let command := {| Bucket := get_property b "bucket" |} in
  (method req <> "POST" /\
   handler req =
     ([EvRunMiddleware corsAllMethods; EvRespond 405 (ErrorJson "Method not allowed")],
      Returned tt))
  \/ (method req = "POST" /\ (b = JUndefined \/ b = JNull) /\
      handler req =
        ([EvRunMiddleware corsAllMethods;
          EvConsoleError "S3 connection test failed:"
            (mkError "TypeError" (destructure_message b));
          EvRespond 500
            (ResultJson false ("Connection test failed: " +:+ destructure_message b))],
         Returned tt))
  \/ (method req = "POST" /\ hasBody req /\
      truthy (get_property b "accessKeyId") && truthy (get_property b "secretAccessKey")
        && truthy (get_property b "bucket") = false /\
      handler req =
        ([EvRunMiddleware corsAllMethods;
          EvRespond 400
            (ErrorJson "Missing required fields: accessKeyId, secretAccessKey, or bucket")],
         Returned tt))
  \/ (method req = "POST" /\
      truthy (get_property b "accessKeyId") && truthy (get_property b "secretAccessKey")
        && truthy (get_property b "bucket") = true /\
      send s3Client command = None /\
      handler req =
        ([EvRunMiddleware corsAllMethods; EvNewS3Client s3Client; EvSend s3Client command;
          EvRespond 200 (ResultJson true "Connection test successful")], Returned tt))
  \/ (method req = "POST" /\
      truthy (get_property b "accessKeyId") && truthy (get_property b "secretAccessKey")
        && truthy (get_property b "bucket") = true /\
      exists e, send s3Client command = Some e /\
      handler req =
        ([EvRunMiddleware corsAllMethods; EvNewS3Client s3Client; EvSend s3Client command;
          EvConsoleError "S3 connection test failed:" e;
          EvRespond 500 (ResultJson false ("Connection test failed: " +:+ failure_detail e))],
         Returned tt)).
Proof.
  intros b s3Client command.
  destruct (String.eqb_spec (method req) "POST") as [Hm | Hm].
  2: { left. split; [assumption |]. unfold TestS3.handler.
       destruct (String.eqb_spec (method req) "POST"); [contradiction | reflexivity]. }
  right.
  destruct (hasBody_dec req) as [Hb | Hb].
  2: { left. split; [assumption |]. split; [exact Hb |].
       exact (handler_post_nullish send destructure_message req Hm Hb). }
  right.
  destruct (truthy (get_property b "accessKeyId")) eqn:Ha;
  destruct (truthy (get_property b "secretAccessKey")) eqn:Hs;
  destruct (truthy (get_property b "bucket")) eqn:Hk;
    try (left; split; [assumption |]; split; [assumption |]; split; [reflexivity |];
         apply handler_post_falsy; [assumption | assumption |];
         unfold js_not; fold b; rewrite Ha, Hs, Hk; reflexivity).
  right.
  pose proof (handler_post_present send destructure_message req Hm Ha Hs Hk) as Hrun.
  simpl in Hrun. fold b in Hrun. fold s3Client in Hrun. fold command in Hrun.
  destruct (send s3Client command) as [e |] eqn:Hsend.
  - right. split; [assumption |]. split; [reflexivity |]. exists e. split; [reflexivity |].
    exact Hrun.
  - left. split; [assumption |]. split; [reflexivity |]. split; [reflexivity |]. exact Hrun.
Qed.

Ltac shapes req :=
  let H := fresh "Hshape" in
  pose proof (handler_shapes req) as H; simpl in H;
  destruct H as [(Hm & Hrun) | [(Hm & Hnull & Hrun) | [(Hm & Hbody & Hfalsy & Hrun)
                | [(Hm & Htruthy & Hsend & Hrun) | (Hm & Htruthy & e & Hsend & Hrun)]]]].

(** X1. Whatever the request and whatever the storage service does, the
    handler answers exactly once, with status 200, 400, 405 or 500, and
    ends without a thrown error. *)
Theorem handler_answers_once req :
  exists status json,
    responses (trace (handler req)) = [(status, json)] /\
    (status = 200 \/ status = 400 \/ status = 405 \/ status = 500) /\
    outcome (handler req) = Returned tt.
Proof.
  shapes req; rewrite Hrun; do 2 eexists; (split; [reflexivity |]); split;
    try reflexivity; auto.
Qed.

(** X2. The handler answers 200 exactly when the request is a POST whose
    three required fields are truthy and the HeadBucket probe built from
    it succeeded. *)
Theorem handler_success_iff req :
  (exists json, responses (trace (handler req)) = [(200, json)]) <->
  (method req = "POST" /\
   truthy (get_property (body req) "accessKeyId")
     && truthy (get_property (body req) "secretAccessKey")
     && truthy (get_property (body req) "bucket") = true /\
   send (clientOptions (get_property (body req) "endpoint")
           (get_property (body req) "accessKeyId")
           (get_property (body req) "secretAccessKey")
           (get_property (body req) "region")
           (get_property (body req) "pathStyle"))
        {| Bucket := get_property (body req) "bucket" |} = None).
Proof.
  split.
  - intros [json Hresp]. shapes req; rewrite Hrun in Hresp; simpl in Hresp;
      try discriminate. auto.
  - intros (Hpost & Hfields & Hok). shapes req.
    + contradiction.
    + destruct Hnull as [Hb | Hb]; rewrite Hb in Hfields; discriminate.
    + congruence.
    + rewrite Hrun. eexists. reflexivity.
    + congruence.
Qed.

(** X3. The handler constructs at most one client and sends at most one
    command, the command goes through the client it constructed, and a
    command is sent exactly when the request is a POST whose three
    required fields are truthy. *)
Theorem handler_network_discipline req :
  clients_constructed (trace (handler req)) = map fst (network_calls (trace (handler req))) /\
  (length (network_calls (trace (handler req))) <= 1)%nat /\
  (network_calls (trace (handler req)) <> [] <->
   method req = "POST" /\
   truthy (get_property (body req) "accessKeyId")
     && truthy (get_property (body req) "secretAccessKey")
     && truthy (get_property (body req) "bucket") = true).
Proof.
  shapes req; rewrite Hrun; simpl; (split; [reflexivity |]); (split; [lia |]);
    split; try (intros H; contradiction H; reflexivity); try (intros _; discriminate);
    try (intros _; split; assumption).
  - intros [Hpost _]. contradiction.
  - intros [_ Hfields].
    destruct Hnull as [Hb | Hb]; rewrite Hb in Hfields; discriminate.
  - intros [_ Hfields]. congruence.
Qed.

(** X4. A POST whose body is not an object but a string, a number, a
    boolean or an array holds none of the fields: it is answered with 400
    and nothing else happens. *)
Theorem handler_non_object_body req :
  method req = "POST" ->
  hasBody req ->
  (forall o, body req <> JObj o) ->
  handler req =
    ([EvRunMiddleware corsAllMethods;
      EvRespond 400
        (ErrorJson "Missing required fields: accessKeyId, secretAccessKey, or bucket")],
     Returned tt).
Proof.
  intros Hm Hb Hno. apply handler_post_falsy; [assumption | assumption |].
  destruct (body req); try reflexivity. destruct (Hno fields eq_refl).
Qed.

(** X5. A POST that has a body is rejected with 400 as soon as one of the
    three required fields is falsy, whatever its type: absent, [null],
    [false], zero, NaN or the empty string.  No client is constructed and
    nothing is sent. *)
Theorem handler_rejects_falsy_fields req :
  method req = "POST" ->
  hasBody req ->
  truthy (get_property (body req) "accessKeyId")
    && truthy (get_property (body req) "secretAccessKey")
    && truthy (get_property (body req) "bucket") = false ->
  responses (trace (handler req)) =
    [(400, ErrorJson "Missing required fields: accessKeyId, secretAccessKey, or bucket")] /\
  clients_constructed (trace (handler req)) = [] /\
  network_calls (trace (handler req)) = [].
Proof.
  intros Hpost Hb Hf. shapes req; try congruence.
  - destruct Hb as [Hu Hn]. destruct Hnull; contradiction.
  - rewrite Hrun. repeat split.
Qed.

(** X6. The optional fields are not checked for their type: whenever
    [region], [endpoint] or [pathStyle] is truthy, be it a number, an
    array or an object, the client is constructed with that very value. *)
Theorem handler_passes_optional_fields req :
  method req = "POST" ->
  truthy (get_property (body req) "accessKeyId") = true ->
  truthy (get_property (body req) "secretAccessKey") = true ->
  truthy (get_property (body req) "bucket") = true ->
  exists s3Client,
    clients_constructed (trace (handler req)) = [s3Client] /\
    (truthy (get_property (body req) "region") = true ->
       region s3Client = get_property (body req) "region") /\
    (truthy (get_property (body req) "endpoint") = true ->
       endpoint s3Client = get_property (body req) "endpoint") /\
    (truthy (get_property (body req) "pathStyle") = true ->
       forcePathStyle s3Client = get_property (body req) "pathStyle").
Proof.
  intros Hm Ha Hs Hb. eexists.
  split; [apply clients_constructed_present; assumption |].
  unfold clientOptions, js_or; simpl.
  repeat split; intros ->; reflexivity.
Qed.

(** X7. The handler writes to the console exactly when it answers 500,
    and then once: the entry is the fixed label with the error that was
    caught, the one the answer's message is made from. *)
Theorem handler_logs_failures_only req :
  (console_errors (trace (handler req)) = [] /\
   exists status json,
     responses (trace (handler req)) = [(status, json)] /\ status <> 500)
  \/ (exists e,
        console_errors (trace (handler req)) = [("S3 connection test failed:", e)] /\
        responses (trace (handler req)) =
          [(500, ResultJson false ("Connection test failed: " +:+ failure_detail e))]).
Proof.
  shapes req; rewrite Hrun.
  - left. split; [reflexivity |]. do 2 eexists. split; [reflexivity | discriminate].
  - right. eexists. split; reflexivity.
  - left. split; [reflexivity |]. do 2 eexists. split; [reflexivity | discriminate].
  - left. split; [reflexivity |]. do 2 eexists. split; [reflexivity | discriminate].
  - right. exists e. split; reflexivity.
Qed.

Lemma get_property_insert_ne (o : gmap string JsValue) k k' v :
  k <> k' -> get_property (JObj (<[k := v]> o)) k' = get_property (JObj o) k'.
Proof. intros Hne. simpl. rewrite lookup_insert_ne by exact Hne. reflexivity. Qed.

Lemma get_property_insert_eq (o : gmap string JsValue) k v :
  get_property (JObj (<[k := v]> o)) k = v.
Proof. simpl. rewrite lookup_insert_eq. reflexivity. Qed.

(** X22. The handler itself puts nothing of the secret into what it
    answers or logs: two requests that differ only in the value of
    [secretAccessKey], both values present or both missing, get the same
    answer and the same console output whenever the storage service
    settles their probes alike. *)
Theorem handler_answer_independent_of_secret m (o : gmap string JsValue) v1 v2 :
  truthy v1 = truthy v2 ->
  (forall endpoint accessKeyId region pathStyle command,
     send (clientOptions endpoint accessKeyId v1 region pathStyle) command =
     send (clientOptions endpoint accessKeyId v2 region pathStyle) command) ->
  responses (trace (handler {| method := m; body := JObj (<["secretAccessKey" := v1]> o) |})) =
  responses (trace (handler {| method := m; body := JObj (<["secretAccessKey" := v2]> o) |}))
  /\
  console_errors
    (trace (handler {| method := m; body := JObj (<["secretAccessKey" := v1]> o) |})) =
  console_errors
    (trace (handler {| method := m; body := JObj (<["secretAccessKey" := v2]> o) |})).
Proof.
  intros Htruthy Hsend.
  set (req1 := {| method := m; body := JObj (<["secretAccessKey" := v1]> o) |}).
  set (req2 := {| method := m; body := JObj (<["secretAccessKey" := v2]> o) |}).
  assert (Hother : forall k, k <> "secretAccessKey" ->
            get_property (body req1) k = get_property (body req2) k).
  { intros k Hk. unfold req1, req2; cbn [body].
    rewrite !get_property_insert_ne by congruence. reflexivity. }
  assert (Hs1 : get_property (body req1) "secretAccessKey" = v1)
    by apply get_property_insert_eq.
  assert (Hs2 : get_property (body req2) "secretAccessKey" = v2)
    by apply get_property_insert_eq.
  assert (Hb1 : hasBody req1) by (split; discriminate).
  assert (Hb2 : hasBody req2) by (split; discriminate).
  destruct (String.eqb_spec m "POST") as [Hm | Hm].
  2: { apply String.eqb_neq in Hm. unfold TestS3.handler, req1, req2; cbn [method].
       rewrite Hm. split; reflexivity. }
  assert (Hfields :
            truthy (get_property (body req2) "accessKeyId")
              && truthy (get_property (body req2) "secretAccessKey")
              && truthy (get_property (body req2) "bucket")
            = truthy (get_property (body req1) "accessKeyId")
                && truthy (get_property (body req1) "secretAccessKey")
                && truthy (get_property (body req1) "bucket")).
  { rewrite Hs1, Hs2, Htruthy, (Hother "accessKeyId"), (Hother "bucket") by discriminate.
    reflexivity. }
  destruct (truthy (get_property (body req1) "accessKeyId")
              && truthy (get_property (body req1) "secretAccessKey")
              && truthy (get_property (body req1) "bucket")) eqn:Hall.
  - apply andb_prop in Hall as [Hall Hk1]. apply andb_prop in Hall as [Ha1 Hv1].
    apply andb_prop in Hfields as [Hfields Hk2]. apply andb_prop in Hfields as [Ha2 Hv2].
    pose proof (handler_post_present send destructure_message req1 Hm Ha1 Hv1 Hk1) as H1.
    pose proof (handler_post_present send destructure_message req2 Hm Ha2 Hv2 Hk2) as H2.
    cbv zeta in H1, H2.
    assert (Hsame :
      send (clientOptions (get_property (body req2) "endpoint")
              (get_property (body req2) "accessKeyId")
              (get_property (body req2) "secretAccessKey")
              (get_property (body req2) "region")
              (get_property (body req2) "pathStyle"))
           {| Bucket := get_property (body req2) "bucket" |}
      = send (clientOptions (get_property (body req1) "endpoint")
                (get_property (body req1) "accessKeyId")
                (get_property (body req1) "secretAccessKey")
                (get_property (body req1) "region")
                (get_property (body req1) "pathStyle"))
             {| Bucket := get_property (body req1) "bucket" |}).
    { rewrite <- (Hother "endpoint"), <- (Hother "accessKeyId"), <- (Hother "region"),
        <- (Hother "pathStyle"), <- (Hother "bucket") by discriminate.
      rewrite Hs1, Hs2. symmetry. apply Hsend. }
    rewrite Hsame in H2. clear Hsame. rewrite H1, H2.
    destruct (send _ _); split; reflexivity.
  - assert (Hfalsy : forall req,
              truthy (get_property (body req) "accessKeyId")
                && truthy (get_property (body req) "secretAccessKey")
                && truthy (get_property (body req) "bucket") = false ->
              js_not (get_property (body req) "accessKeyId")
                || js_not (get_property (body req) "secretAccessKey")
                || js_not (get_property (body req) "bucket") = true).
    { intros req Hf. unfold js_not. rewrite <- !negb_andb, Hf. reflexivity. }
    rewrite (handler_post_falsy send destructure_message req1 Hm Hb1 (Hfalsy req1 Hall)).
    rewrite (handler_post_falsy send destructure_message req2 Hm Hb2 (Hfalsy req2 Hfields)).
    split; reflexivity.
Qed.

End Facts.

Lemma handler_answer_independent_of_secret_witness :
  responses (trace (TestS3.handler Samples.reachable Samples.v8Message
     {| method := "POST";
        body := JObj (<["secretAccessKey" := JStr "one"]>
                        {[ "accessKeyId" := JStr "AK"; "bucket" := JStr "b" ]}) |})) =
  responses (trace (TestS3.handler Samples.reachable Samples.v8Message
     {| method := "POST";
        body := JObj (<["secretAccessKey" := JStr "two"]>
                        {[ "accessKeyId" := JStr "AK"; "bucket" := JStr "b" ]}) |}))
  /\
  console_errors (trace (TestS3.handler Samples.reachable Samples.v8Message
     {| method := "POST";
        body := JObj (<["secretAccessKey" := JStr "one"]>
                        {[ "accessKeyId" := JStr "AK"; "bucket" := JStr "b" ]}) |})) =
  console_errors (trace (TestS3.handler Samples.reachable Samples.v8Message
     {| method := "POST";
        body := JObj (<["secretAccessKey" := JStr "two"]>
                        {[ "accessKeyId" := JStr "AK"; "bucket" := JStr "b" ]}) |})).
Proof.
  apply (handler_answer_independent_of_secret Samples.reachable Samples.v8Message "POST"
           {[ "accessKeyId" := JStr "AK"; "bucket" := JStr "b" ]} (JStr "one") (JStr "two")).
  - reflexivity.
  - reflexivity.
Defined.

Lemma handler_success_iff_witness :
  exists json,
    responses (trace (TestS3.handler Samples.reachable Samples.v8Message
                        (Samples.post Samples.minimalBody))) = [(200, json)].
Proof.
  apply (proj2 (handler_success_iff Samples.reachable Samples.v8Message
                  (Samples.post Samples.minimalBody))).
  vm_compute. repeat split.
Defined.

Lemma handler_network_discipline_witness :
  network_calls (trace (TestS3.handler Samples.reachable Samples.v8Message
                          (Samples.post Samples.minimalBody))) <> [].
Proof.
  apply (proj2 (proj2 (proj2 (handler_network_discipline Samples.reachable Samples.v8Message
                                (Samples.post Samples.minimalBody))))).
  vm_compute. repeat split.
Defined.

Lemma handler_non_object_body_witness :
  TestS3.handler Samples.reachable Samples.v8Message (Samples.post (JStr EmptyString)) =
    ([EvRunMiddleware corsAllMethods;
      EvRespond 400
        (ErrorJson "Missing required fields: accessKeyId, secretAccessKey, or bucket")],
     Returned tt).
Proof.
  apply (handler_non_object_body Samples.reachable Samples.v8Message
           (Samples.post (JStr EmptyString))).
  - reflexivity.
  - split; discriminate.
  - intros o; discriminate.
Defined.

Lemma handler_rejects_falsy_fields_witness :
  responses (trace (TestS3.handler Samples.reachable Samples.v8Message
     (Samples.post (JObj {[ "accessKeyId" := JNull; "secretAccessKey" := JStr "SK";
                            "bucket" := JStr "b" ]})))) =
    [(400, ErrorJson "Missing required fields: accessKeyId, secretAccessKey, or bucket")] /\
  clients_constructed (trace (TestS3.handler Samples.reachable Samples.v8Message
     (Samples.post (JObj {[ "accessKeyId" := JNull; "secretAccessKey" := JStr "SK";
                            "bucket" := JStr "b" ]})))) = [] /\
  network_calls (trace (TestS3.handler Samples.reachable Samples.v8Message
     (Samples.post (JObj {[ "accessKeyId" := JNull; "secretAccessKey" := JStr "SK";
                            "bucket" := JStr "b" ]})))) = [].
Proof.
  apply (handler_rejects_falsy_fields Samples.reachable Samples.v8Message
           (Samples.post (JObj {[ "accessKeyId" := JNull; "secretAccessKey" := JStr "SK";
                                  "bucket" := JStr "b" ]}))).
  - reflexivity.
  - split; discriminate.
  - vm_compute. reflexivity.
Defined.

Lemma handler_passes_optional_fields_witness :
  exists s3Client,
    clients_constructed (trace (TestS3.handler Samples.reachable Samples.v8Message
       (Samples.post (JObj {[ "accessKeyId" := JStr "AK"; "secretAccessKey" := JStr "SK";
                              "bucket" := JStr "b"; "region" := JArr [JStr "eu"] ]}))))
      = [s3Client] /\
    region s3Client = JArr [JStr "eu"].
Proof.
  destruct (handler_passes_optional_fields Samples.reachable Samples.v8Message
       (Samples.post (JObj {[ "accessKeyId" := JStr "AK"; "secretAccessKey" := JStr "SK";
                              "bucket" := JStr "b"; "region" := JArr [JStr "eu"] ]})))
    as (s3Client & Hc & Hregion & _);
    [reflexivity | vm_compute; reflexivity | vm_compute; reflexivity
    | vm_compute; reflexivity |].
  exists s3Client. split; [exact Hc |].
  rewrite Hregion; vm_compute; reflexivity.
Defined.

End TestS3More.

(** * Further properties of the panel *)

Module PanelMore.
Import Js Json JsonFacts S3ConfigPanel PanelFacts.

Lemma nonempty_false s : nonempty s = false -> s = EmptyString.
Proof.
  unfold nonempty. destruct (String.eqb_spec s EmptyString); [auto | discriminate].
Qed.

Lemma sameNonSecret_refl c : sameNonSecret c c.
Proof. repeat split. Qed.

(** X8. The comparison the first effect makes is exact: the two JSON
    texts are equal precisely when the five fields other than the secret
    are, whatever characters the fields contain. *)
Theorem compared_texts_equal_iff c1 c2 :
  JSON_stringify (comparedFields c1) = JSON_stringify (comparedFields c2) <->
  sameNonSecret c1 c2.
Proof. split; [apply comparedFields_inj | apply comparedFields_same]. Qed.

(** X16. An edit sets the field it names and leaves the others: after
    the edit the named field reads as the value given and every other
    field reads as before; so edits of different fields can be made in
    either order, and of two edits of the same field the later one
    decides. *)
Theorem applyEdit_fields e1 e2 c :
  readField (editedField e1) (applyEdit e1 c) = Some (editedValue e1) /\
  (forall key, key <> editedField e1 ->
     readField key (applyEdit e1 c) = readField key c) /\
  (editedField e1 <> editedField e2 ->
     applyEdit e2 (applyEdit e1 c) = applyEdit e1 (applyEdit e2 c)) /\
  (editedField e1 = editedField e2 ->
     applyEdit e2 (applyEdit e1 c) = applyEdit e2 c).
Proof.
  split; [destruct e1; reflexivity |]. split.
  - intros key Hkey. unfold readField.
    destruct e1; simpl in *;
      repeat match goal with
             | |- context [String.eqb key ?k] =>
                 destruct (String.eqb_spec key k) as [-> | _];
                 [try reflexivity; contradiction Hkey; reflexivity |]
             end;
      reflexivity.
  - destruct e1, e2; simpl; split; intros H; try reflexivity; try discriminate;
      contradiction H; reflexivity.
Qed.

Section Facts.

Variable OtherSettings : Type.
Variable translate : string -> list (string * string) -> string.

Implicit Types (w : World OtherSettings) (s : Session OtherSettings).

(** What the first effect leaves alone. *)
Lemma reconcile_keeps w :
  testResult (panel (reconcile w)) = testResult (panel w) /\
  isTesting (panel (reconcile w)) = isTesting (panel w) /\
  showSecret (panel (reconcile w)) = showSecret (panel w) /\
  settings (reconcile w) = settings w /\
  calls (reconcile w) = calls w.
Proof.
  unfold reconcile. destruct (s3Config (settings w)).
  - destruct (negb _); repeat split.
  - destruct (nonempty _ || nonempty _ || nonempty _ || nonempty _ || pathStyle _);
      repeat split.
Qed.

(** What the first effect establishes. *)
Lemma reconcile_establishes w :
  match s3Config (settings w) with
  | Some stored => sameNonSecret (config (panel (reconcile w))) stored
  | None =>
      sameNonSecret (config (panel (reconcile w))) emptyConfig /\
      secretAccessKey (config (panel (reconcile w))) = secretAccessKey (config (panel w))
  end.
Proof.
  unfold reconcile. destruct (s3Config (settings w)) as [stored |].
  - destruct (String.eqb_spec (JSON_stringify (comparedFields (config (panel w))))
                              (JSON_stringify (comparedFields stored))) as [Heq | Hne]; simpl.
    + apply comparedFields_inj, Heq.
    + apply sameNonSecret_refl.
  - destruct (nonempty _ || nonempty _ || nonempty _ || nonempty _ || pathStyle _) eqn:Hany;
      simpl; [repeat split |].
    repeat (apply orb_false_elim in Hany as [Hany ?]).
    split; [| reflexivity]. unfold sameNonSecret; simpl.
    repeat split; auto using nonempty_false.
Qed.

Lemma reconcile_absent_empty w :
  s3Config (settings w) = None ->
  sameNonSecret (config (panel w)) emptyConfig ->
  reconcile w = w.
Proof.
  unfold reconcile, sameNonSecret. intros -> (He & Ha & Hr & Hb & Hp).
  rewrite He, Ha, Hr, Hb, Hp. reflexivity.
Qed.

Lemma reconcile_after_edit e w : reconcile (handleChange e w) = handleChange e w.
Proof.
  apply (reconcile_same _ _ (applyEdit e (config (panel w))));
    [reflexivity | apply sameNonSecret_refl].
Qed.

(** X11. The first effect touches nothing but the form's configuration:
    the displayed result, the testing flag, the visibility of the secret,
    the store and the calls made are as before. *)
Theorem reconcile_frame w :
  testResult (panel (reconcile w)) = testResult (panel w) /\
  isTesting (panel (reconcile w)) = isTesting (panel w) /\
  showSecret (panel (reconcile w)) = showSecret (panel w) /\
  settings (reconcile w) = settings w /\
  calls (reconcile w) = calls w.
Proof. exact (reconcile_keeps w). Qed.

(** X9. After the first effect has run the form agrees with the store on
    every field but the secret; with no stored configuration these fields
    are all empty and the secret is the one held before. *)
Theorem reconcile_agrees_with_store w :
  match s3Config (settings w) with
  | Some stored => sameNonSecret (config (panel (reconcile w))) stored
  | None =>
      sameNonSecret (config (panel (reconcile w))) emptyConfig /\
      secretAccessKey (config (panel (reconcile w))) = secretAccessKey (config (panel w))
  end.
Proof. exact (reconcile_establishes w). Qed.

(** X10. Running the first effect again changes nothing. *)
Theorem reconcile_idempotent w : reconcile (reconcile w) = reconcile w.
Proof.
  pose proof (reconcile_establishes w) as Hpost.
  destruct (reconcile_keeps w) as (_ & _ & _ & Hsettings & _).
  destruct (s3Config (settings w)) as [stored |] eqn:Hs.
  - apply (reconcile_same _ _ stored); [rewrite Hsettings; exact Hs | exact Hpost].
  - apply reconcile_absent_empty; [rewrite Hsettings; exact Hs | exact (proj1 Hpost)].
Qed.

(** X12. The store update an edit makes does not come back at the form:
    the effect that runs after the edit leaves the panel exactly as the
    edit left it, the secret being typed included. *)
Theorem own_edit_survives_effect e w :
  reconcile (handleChange e w) = handleChange e w /\
  config (panel (reconcile (handleChange e w))) = applyEdit e (config (panel w)).
Proof. rewrite reconcile_after_edit. split; reflexivity. Qed.

(** X13. On mount the stored configuration is loaded into the form only
    if one of its fields other than the secret is set: a stored
    configuration that holds nothing but a secret leaves the form empty,
    and so does an absent one. *)
Theorem mount_loads_stored_config (st : Settings OtherSettings) :
  (forall stored, s3Config st = Some stored ->
     ~ sameNonSecret emptyConfig stored ->
     config (panel (world (mount st))) = stored) /\
  (forall stored, s3Config st = Some stored ->
     sameNonSecret emptyConfig stored ->
     config (panel (world (mount st))) = emptyConfig) /\
  (s3Config st = None -> config (panel (world (mount st))) = emptyConfig).
Proof.
  split; [| split].
  - intros stored Hs Hdiff. unfold mount; simpl.
    apply reconcile_differs; assumption.
  - intros stored Hs Hsame. unfold mount; simpl.
    rewrite (reconcile_same _ _ stored); [reflexivity | exact Hs | exact Hsame].
  - intros Hs. unfold mount, reconcile; simpl. rewrite Hs. reflexivity.
Qed.

Lemma timersSet_app (a b : list (Call OtherSettings)) :
  timersSet (a ++ b)%list = (timersSet a + timersSet b)%nat.
Proof. unfold timersSet. rewrite flat_map_app, length_app. reflexivity. Qed.

Lemma savedSettings_app (a b : list (Call OtherSettings)) :
  savedSettings (a ++ b)%list = (savedSettings a ++ savedSettings b)%list.
Proof. unfold savedSettings. apply flat_map_app. Qed.

Lemma handleChange_calls e w :
  calls (handleChange e w) =
    (calls w ++ [CallSetSettings (settings (handleChange e w));
                 CallSaveSettings (settings (handleChange e w))])%list.
Proof.
  unfold handleChange, saveConfigToStore_begin, setSettings, call; simpl.
  rewrite <- app_assoc. reflexivity.
Qed.

(** X14. After an edit the store's settings hold the configuration the
    form shows, the settings it held besides are as before, and the one
    [saveSettings] call the edit makes is given exactly these settings.
    The displayed result and the two flags are not touched. *)
Theorem edit_writes_form_to_store e w :
  let w' := handleChange e w in
  s3Config (settings w') = Some (config (panel w')) /\
  otherSettings (settings w') = otherSettings (settings w) /\
  savedSettings (calls w') = (savedSettings (calls w) ++ [settings w'])%list /\
  testResult (panel w') = testResult (panel w) /\
  isTesting (panel w') = isTesting (panel w) /\
  showSecret (panel w') = showSecret (panel w).
Proof.
  cbv zeta. rewrite handleChange_calls, savedSettings_app. repeat split.
Qed.

(** X17. Whichever of a test and a write settles last decides what is
    shown: when the write of an edit fails while a test is running, the
    failure is replaced by the success of the test once the timer fires;
    the edit stays in the form. *)
Theorem test_result_hides_write_failure e error w :
  let w' := handleTestConnection_settle translate timerPromise
              (editField translate e (Thrown error) (handleTestConnection_begin w)) in
  testResult (panel (editField translate e (Thrown error) (handleTestConnection_begin w))) =
    Some {| success := false;
            message := translate "Failed to save S3 configuration: {{error}}"
                                 [("error", Js.message error)] |} /\
  testResult (panel w') =
    Some {| success := true; message := translate "Connection test successful" [] |} /\
  isTesting (panel w') = false /\
  config (panel w') = applyEdit e (config (panel w)).
Proof. repeat split. Qed.

(** X20. After a reset the next edit writes a configuration that holds
    that edit and nothing else, whatever the store held: the reset
    reaches the store with the first edit that follows it. *)
Theorem edit_after_reset_overwrites_store e w :
  let w' := handleChange e (resetFn w) in
  s3Config (settings w') = Some (applyEdit e emptyConfig) /\
  config (panel w') = applyEdit e emptyConfig /\
  savedSettings (calls w') =
    (savedSettings (calls w) ++
     [{| s3Config := Some (applyEdit e emptyConfig);
         otherSettings := otherSettings (settings w) |}])%list.
Proof.
  cbv zeta. rewrite handleChange_calls, savedSettings_app. repeat split.
Qed.

(** *** Invariants of a mounted component *)

Lemma run_cons ev evs s :
  run translate (ev :: evs) s = run translate evs (dispatch translate ev s).
Proof. reflexivity. Qed.

Lemma run_invariant (P : Session OtherSettings -> Prop) :
  (forall ev s, P s -> P (dispatch translate ev s)) ->
  forall evs s, P s -> P (run translate evs s).
Proof.
  intros Hstep evs. induction evs as [| ev evs IH]; intros s Hs; [exact Hs |].
  rewrite run_cons. apply IH, Hstep, Hs.
Qed.

Lemma testingInvariant_mount (st : Settings OtherSettings) : testingInvariant (mount st).
Proof.
  unfold testingInvariant, mount; simpl.
  destruct (reconcile_keeps {| panel := initialState; settings := st; calls := [] |})
    as (_ & -> & _ & _ & ->).
  reflexivity.
Qed.

Lemma testingInvariant_step ev s :
  testingInvariant s -> testingInvariant (dispatch translate ev s).
Proof.
  unfold testingInvariant. intros Hinv. destruct ev as [e | r | | | | | new]; simpl.
  - rewrite reconcile_after_edit, handleChange_calls, timersSet_app. simpl.
    rewrite Nat.add_0_r. exact Hinv.
  - destruct (0 <? pendingWrites s)%nat; [destruct r |]; exact Hinv.
  - destruct (isTesting (panel (world s))) eqn:Ht; simpl; [rewrite Ht; exact Hinv |].
    unfold call; simpl. rewrite timersSet_app.
    change (timersSet [CallSetTimeout 1000]) with 1%nat. lia.
  - unfold pendingTests.
    destruct (Nat.ltb_spec 0 (timersSet (calls (world s)) - timersFired s)) as [Hp | Hp];
      simpl; [| exact Hinv].
    destruct (isTesting (panel (world s))); lia.
  - exact Hinv.
  - exact Hinv.
  - destruct (reconcile_keeps {| panel := panel (world s); settings := new;
                                 calls := calls (world s) |})
      as (_ & -> & _ & _ & ->).
    exact Hinv.
Qed.

(** X18. At most one test is in flight.  Whatever the user and the
    application do to a mounted component, in whatever order, the number
    of timers set and not yet fired is never more than one, it is one
    exactly while [isTesting] is set, and the test button is disabled
    exactly then. *)
Theorem one_test_in_flight evs (st : Settings OtherSettings) :
  let s := run translate evs (mount st) in
  (pendingTests s <= 1)%nat /\
  isTesting (panel (world s)) = (pendingTests s =? 1)%nat /\
  testButtonDisabled (render translate (panel (world s))) = (pendingTests s =? 1)%nat.
Proof.
  cbv zeta.
  assert (Hinv : testingInvariant (run translate evs (mount st))).
  { apply run_invariant; [apply testingInvariant_step | apply testingInvariant_mount]. }
  unfold testingInvariant in Hinv. unfold pendingTests. simpl.
  destruct (isTesting (panel (world (run translate evs (mount st))))).
  - replace (timersSet _ - timersFired _)%nat with 1%nat by lia. repeat split; lia.
  - replace (timersSet _ - timersFired _)%nat with 0%nat by lia. repeat split; lia.
Qed.

Lemma showSecret_step ev s :
  showSecret (panel (world (dispatch translate ev s))) =
    match ev with
    | ClickShowSecret => negb (showSecret (panel (world s)))
    | _ => showSecret (panel (world s))
    end.
Proof.
  destruct ev as [e | r | | | | | new]; simpl; try reflexivity.
  - rewrite reconcile_after_edit. reflexivity.
  - destruct (0 <? pendingWrites s)%nat; [destruct r |]; reflexivity.
  - destruct (isTesting (panel (world s))); reflexivity.
  - destruct (0 <? pendingTests s)%nat; reflexivity.
  - destruct (reconcile_keeps {| panel := panel (world s); settings := new;
                                 calls := calls (world s) |})
      as (_ & _ & -> & _ & _).
    reflexivity.
Qed.

Lemma showSecret_run evs : forall s,
  showSecret (panel (world (run translate evs s))) =
    xorb (showSecret (panel (world s))) (Nat.odd (toggleClicks evs)).
Proof.
  induction evs as [| ev evs IH]; intros s.
  - simpl. rewrite xorb_false_r. reflexivity.
  - rewrite run_cons, IH, showSecret_step.
    destruct ev; try reflexivity.
    unfold toggleClicks; simpl. rewrite Nat.odd_succ, <- Nat.negb_odd.
    destruct (showSecret (panel (world s))), (Nat.odd _); reflexivity.
Qed.

(** X19. The secret is masked unless the user asked to see it: in a
    mounted component the secret field is a password field after an even
    number of clicks on the show/hide button and a text field after an
    odd number, whatever else has happened; no edit, test, write, reset
    or store change reveals or hides it. *)
Theorem secret_masked_unless_toggled evs (st : Settings OtherSettings) :
  let s := run translate evs (mount st) in
  showSecret (panel (world s)) = Nat.odd (toggleClicks evs) /\
  secretInputType (render translate (panel (world s))) =
    (if Nat.odd (toggleClicks evs) then "text" else "password").
Proof.
  cbv zeta.
  assert (H : showSecret (panel (world (run translate evs (mount st))))
              = Nat.odd (toggleClicks evs)).
  { rewrite showSecret_run. unfold mount; simpl.
    destruct (reconcile_keeps {| panel := initialState; settings := st; calls := [] |})
      as (_ & _ & -> & _ & _).
    reflexivity. }
  split; [exact H |]. simpl. rewrite H. reflexivity.
Qed.

Lemma saves_step ev s :
  length (savedSettings (calls (world (dispatch translate ev s)))) =
    (length (savedSettings (calls (world s))) +
     match ev with Change _ => 1 | _ => 0 end)%nat.
Proof.
  destruct ev as [e | r | | | | | new]; simpl; rewrite ?Nat.add_0_r; try reflexivity.
  - rewrite reconcile_after_edit, handleChange_calls, savedSettings_app, length_app.
    reflexivity.
  - destruct (0 <? pendingWrites s)%nat; [destruct r |]; reflexivity.
  - destruct (isTesting (panel (world s))); [reflexivity |].
    unfold call; simpl. rewrite savedSettings_app, length_app. simpl. lia.
  - destruct (0 <? pendingTests s)%nat; reflexivity.
  - destruct (reconcile_keeps {| panel := panel (world s); settings := new;
                                 calls := calls (world s) |})
      as (_ & _ & _ & _ & ->).
    reflexivity.
Qed.

Lemma saves_run evs : forall s,
  length (savedSettings (calls (world (run translate evs s)))) =
    (length (savedSettings (calls (world s))) + length (changes evs))%nat.
Proof.
  induction evs as [| ev evs IH]; intros s; [simpl; lia |].
  rewrite run_cons, IH, saves_step. unfold changes; simpl.
  rewrite length_app. destruct ev; simpl; lia.
Qed.

(** X15. Every edit is written once and nothing else is: in a mounted
    component the number of [saveSettings] calls is the number of field
    edits, however the edits are interleaved with tests, settled writes,
    resets and store changes.  Writes are not merged and a reset writes
    nothing. *)
Theorem one_write_per_edit evs (st : Settings OtherSettings) :
  length (savedSettings (calls (world (run translate evs (mount st))))) =
    length (changes evs).
Proof.
  rewrite saves_run. unfold mount; simpl.
  destruct (reconcile_keeps {| panel := initialState; settings := st; calls := [] |})
    as (_ & _ & _ & _ & ->).
  reflexivity.
Qed.

Lemma otherSettings_step o ev s :
  (forall new, ev <> StoreChanged new) ->
  otherSettings (settings (world s)) = o /\
  Forall (fun saved => otherSettings saved = o) (savedSettings (calls (world s))) ->
  otherSettings (settings (world (dispatch translate ev s))) = o /\
  Forall (fun saved => otherSettings saved = o)
         (savedSettings (calls (world (dispatch translate ev s)))).
Proof.
  intros Hev [Ho Hsaved]. destruct ev as [e | r | | | | | new]; simpl.
  - rewrite reconcile_after_edit, handleChange_calls, savedSettings_app.
    split; [exact Ho |]. apply Forall_app. split; [exact Hsaved |].
    simpl. constructor; [exact Ho | constructor].
  - destruct (0 <? pendingWrites s)%nat; [destruct r |]; split; assumption.
  - destruct (isTesting (panel (world s))); [split; assumption |].
    unfold call; simpl. rewrite savedSettings_app. simpl. rewrite app_nil_r.
    split; assumption.
  - destruct (0 <? pendingTests s)%nat; split; assumption.
  - split; assumption.
  - split; assumption.
  - destruct (Hev new eq_refl).
Qed.

(** X21. The panel never alters the rest of the settings document: as
    long as no other part of the application changes the store, the
    settings beside [s3Config] stay those found on mount, in the store
    and in every value handed to [saveSettings]. *)
Theorem other_settings_untouched evs (st : Settings OtherSettings) :
  (forall new, ~ In (StoreChanged new) evs) ->
  let s := run translate evs (mount st) in
  otherSettings (settings (world s)) = otherSettings st /\
  Forall (fun saved => otherSettings saved = otherSettings st)
         (savedSettings (calls (world s))).
Proof.
  intros Hev; cbv zeta.
  assert (Hmount : otherSettings (settings (world (mount st))) = otherSettings st /\
                   Forall (fun saved => otherSettings saved = otherSettings st)
                          (savedSettings (calls (world (mount st))))).
  { unfold mount; simpl.
    destruct (reconcile_keeps {| panel := initialState; settings := st; calls := [] |})
      as (_ & _ & _ & -> & ->).
    split; [reflexivity | constructor]. }
  revert Hmount. generalize (mount st). induction evs as [| ev evs IH]; intros s Hs.
  - exact Hs.
  - rewrite run_cons. apply IH.
    + intros new Hin. apply (Hev new). right. exact Hin.
    + apply otherSettings_step; [| exact Hs].
      intros new ->. apply (Hev new). left. reflexivity.
Qed.

End Facts.

Lemma applyEdit_fields_witness :
  readField "bucket" (applyEdit (EditRegion "eu-west-1") PanelSamples.localConfig) =
    Some (JsonString "books") /\
  applyEdit (EditBucket "books") (applyEdit (EditRegion "eu-west-1") emptyConfig) =
  applyEdit (EditRegion "eu-west-1") (applyEdit (EditBucket "books") emptyConfig).
Proof.
  split.
  - rewrite (proj1 (proj2 (applyEdit_fields (EditRegion "eu-west-1") (EditBucket "books")
                             PanelSamples.localConfig)) "bucket");
      [reflexivity | vm_compute; discriminate].
  - apply (proj1 (proj2 (proj2 (applyEdit_fields (EditRegion "eu-west-1")
                                  (EditBucket "books") emptyConfig)))).
    vm_compute. discriminate.
Defined.

Lemma compared_texts_equal_iff_witness :
  JSON_stringify (comparedFields PanelSamples.localConfig) =
  JSON_stringify (comparedFields PanelSamples.incomingWithoutSecret).
Proof.
  apply (proj2 (compared_texts_equal_iff PanelSamples.localConfig
                  PanelSamples.incomingWithoutSecret)).
  vm_compute. repeat split.
Defined.

Lemma mount_loads_stored_config_witness :
  config (panel (world (mount
    {| s3Config := Some (applyEdit (EditSecretAccessKey "SK") emptyConfig);
       otherSettings := tt |}))) = emptyConfig.
Proof.
  apply (proj1 (proj2 (mount_loads_stored_config unit
           {| s3Config := Some (applyEdit (EditSecretAccessKey "SK") emptyConfig);
              otherSettings := tt |}))
         (applyEdit (EditSecretAccessKey "SK") emptyConfig)).
  - reflexivity.
  - vm_compute. repeat split.
Defined.

Lemma other_settings_untouched_witness :
  let s := run PanelSamples.untranslated
             [Change (EditBucket "books"); ClickTest; ResetTriggered; TimerFired]
             (mount {| s3Config := Some PanelSamples.localConfig; otherSettings := tt |}) in
  otherSettings (settings (world s)) = tt /\
  Forall (fun saved => otherSettings saved = tt) (savedSettings (calls (world s))).
Proof.
  apply (other_settings_untouched unit PanelSamples.untranslated
           [Change (EditBucket "books"); ClickTest; ResetTriggered; TimerFired]
           {| s3Config := Some PanelSamples.localConfig; otherSettings := tt |}).
  intros new Hin. simpl in Hin.
  destruct Hin as [H | [H | [H | [H | H]]]]; try discriminate H. exact H.
Defined.

(** A session, event by event: the second click on the test button is
    not taken while the first test is running. *)
Example double_click_runs_one_test :
  let s := run PanelSamples.untranslated [ClickTest; ClickTest; TimerFired; ClickTest]
             (mount {| s3Config := Some PanelSamples.localConfig; otherSettings := tt |}) in
  calls (world s) = [CallSetTimeout 1000; CallSetTimeout 1000] /\
  timersFired s = 1%nat /\ pendingTests s = 1%nat /\
  config (panel (world s)) = PanelSamples.localConfig.
Proof. vm_compute. repeat split. Qed.

End PanelMore.
